(** * MaterGui API: the record admission pipeline and the dashboard report

    A shallow embedding of [main.py] and [schemas.py].

    - Python values, dictionaries and the two clocks are plain data.
    - The store handle [db] is an optional finite map from collection
      names to lists of documents ([None] when the connection was never
      configured).
    - Handlers run in a small exception-and-state monad over a [World]
      that also records every driver call that was issued, so that
      statements such as "the lookup was never performed" can be made.
    - The schema classes are declarative; each becomes a validation
      function from a raw request body to the typed model. *)

From Stdlib Require Import ZArith NArith String Ascii List Lia Bool.
From Stdlib Require Import Floats.PrimFloat.
From stdpp Require Import base option list gmap strings fin_maps.

Import ListNotations.
Local Open Scope string_scope.
Local Open Scope Z_scope.
Set Warnings "-register-all".

(* ===================================================================== *)
(** ** Python data *)
(* ===================================================================== *)

(** [datetime.date]: only the calendar fields are needed. *)
Record date := mkDate { year : Z; month : Z; day : Z }.

(** [datetime.datetime]: a date and the time of day in microseconds. *)
Record datetime := mkDatetime { dt_date : date; dt_micros : Z }.

(** The Python values that can occur in a request model or in a stored
    document. An [ObjectId] is its 96-bit number. *)
Inductive pyval :=
| PNone
| PBool (b : bool)
| PInt (z : Z)
| PFloat (f : float)
| PStr (s : string)
| PDate (d : date)
| PDatetime (t : datetime)
| PObjectId (o : N)
| PList (l : list pyval).

(** A [dict] with string keys, in insertion order. *)
Definition document := list (string * pyval).

Fixpoint dict_get (k : string) (d : document) : option pyval :=
  match d with
  | [] => None
  | (k', v) :: d' => if String.eqb k k' then Some v else dict_get k d'
  end.

(** [d.get(k)]: [None] for a missing key. *)
Definition py_get (k : string) (d : document) : pyval :=
  match dict_get k d with Some v => v | None => PNone end.

(** [d[k] = v]: overwrite in place, or append a new key. *)
Fixpoint dict_set (k : string) (v : pyval) (d : document) : document :=
  match d with
  | [] => [(k, v)]
  | (k', v') :: d' =>
      if String.eqb k k' then (k, v) :: d' else (k', v') :: dict_set k v d'
  end.

(** Truth value testing ([if x], [not x]). *)
Definition truthy (v : pyval) : bool :=
  match v with
  | PNone => false
  | PBool b => b
  | PInt z => negb (z =? 0)
  | PFloat f => negb (PrimFloat.eqb f 0%float)
  | PStr s => negb (String.eqb s "")
  | PDate _ | PDatetime _ | PObjectId _ => true
  | PList l => match l with [] => false | _ => true end
  end.

(** Structural equality of values, as the store compares grouping keys. *)
Fixpoint pyval_eqb (a b : pyval) : bool :=
  match a, b with
  | PNone, PNone => true
  | PBool x, PBool y => Bool.eqb x y
  | PInt x, PInt y => x =? y
  | PFloat x, PFloat y => PrimFloat.eqb x y
  | PStr x, PStr y => String.eqb x y
  | PDate x, PDate y =>
      (year x =? year y) && (month x =? month y) && (day x =? day y)
  | PDatetime x, PDatetime y =>
      (year (dt_date x) =? year (dt_date y))
      && (month (dt_date x) =? month (dt_date y))
      && (day (dt_date x) =? day (dt_date y))
      && (dt_micros x =? dt_micros y)
  | PObjectId x, PObjectId y => N.eqb x y
  | PList l1, PList l2 =>
      (fix go (l1 l2 : list pyval) : bool :=
         match l1, l2 with
         | [], [] => true
         | x :: xs, y :: ys => pyval_eqb x y && go xs ys
         | _, _ => false
         end) l1 l2
  | _, _ => false
  end.

(* ===================================================================== *)
(** ** Decimal and hexadecimal text *)
(* ===================================================================== *)

Definition chars := list ascii.

Definition digit_char (n : Z) : ascii :=
  ascii_of_N (48 + Z.to_N n).

Definition is_digit (c : ascii) : bool :=
  let n := N_of_ascii c in (48 <=? n)%N && (n <=? 57)%N.

Definition digit_val (c : ascii) : Z := Z.of_N (N_of_ascii c) - 48.

(** The value a run of decimal digits denotes. *)
Definition digits_value (l : chars) : Z :=
  fold_left (fun v c => 10 * v + digit_val c) l 0.

(** [str(n)] for [n >= 0]: most significant digit first. The fuel is the
    bit length of [n], which is never less than its number of digits. *)
Fixpoint dec_fuel (fuel : nat) (n : Z) : chars :=
  match fuel with
  | O => [digit_char (n mod 10)]
  | S f =>
      if n <? 10 then [digit_char (n mod 10)]
      else (dec_fuel f (n / 10) ++ [digit_char (n mod 10)])%list
  end.

Definition dec (n : Z) : chars := dec_fuel (Z.to_nat (Z.log2 n)) n.

(** Zero padding on the left up to a minimum width (["%02d"], [":06d"]). *)
Definition zfill (width : nat) (l : chars) : chars :=
  (repeat "0"%char (width - length l) ++ l)%list.

Definition hex_char (n : N) : ascii :=
  if (n <? 10)%N then ascii_of_N (48 + n) else ascii_of_N (87 + n).

Definition hex_val (c : ascii) : option N :=
  let n := N_of_ascii c in
  if (48 <=? n)%N && (n <=? 57)%N then Some (n - 48)%N
  else if (97 <=? n)%N && (n <=? 102)%N then Some (n - 87)%N
  else if (65 <=? n)%N && (n <=? 70)%N then Some (n - 55)%N
  else None.

Fixpoint hex_fixed (width : nat) (n : N) : chars :=
  match width with
  | O => []
  | S w => (hex_fixed w (n / 16) ++ [hex_char (n mod 16)])%list
  end.

Fixpoint hex_parse (l : chars) (acc : N) : option N :=
  match l with
  | [] => Some acc
  | c :: l' =>
      match hex_val c with
      | Some v => hex_parse l' (16 * acc + v)%N
      | None => None
      end
  end.

(** [bson.ObjectId(s)] for a string: accepted exactly when [s] is 24
    hexadecimal characters; anything else raises [InvalidId]. *)
Definition ObjectId (s : string) : option N :=
  if Nat.eqb (String.length s) 24
  then hex_parse (list_ascii_of_string s) 0%N
  else None.

(** [str(oid)]: 24 lower-case hexadecimal characters. *)
Definition oid_str (o : N) : string :=
  string_of_list_ascii (hex_fixed 24 o).

(* ===================================================================== *)
(** ** The world a request runs in *)
(* ===================================================================== *)

(** What a handler can raise: [fastapi.HTTPException], or any other
    Python exception, of which only the class name is kept. *)
Inductive exn :=
| HTTPException (status_code : Z) (detail : string)
| PyError (name : string).

(** The calls made on the store driver. *)
Inductive driver_call :=
| FindOne (col : string) (oid : N)
| Find (col : string)
| CountDocuments (col : string)
| InsertOne (col : string)
| ListCollectionNames
| Aggregate (col : string).

Abbreviation store := (gmap string (list document)).

(** [db] is the module-level handle imported from [database]; [faults]
    says which driver calls raise (network loss, server error); [calls]
    is the log of driver calls issued so far, oldest first; [next_oid] is
    the next storage identifier the store hands out; [utcnow] and [today]
    are the readings of [datetime.utcnow()] and [date.today()];
    [randbelow] is [secrets.randbelow]. *)
Record World := mkWorld {
  db : option store;
  faults : driver_call -> bool;
  calls : list driver_call;
  next_oid : N;
  utcnow : datetime;
  today : date;
  randbelow : Z -> Z
}.

Definition log_call (c : driver_call) (w : World) : World :=
  mkWorld (db w) (faults w) (calls w ++ [c]) (next_oid w)
          (utcnow w) (today w) (randbelow w).

Definition put_store (st : store) (n : N) (w : World) : World :=
  mkWorld (Some st) (faults w) (calls w) n
          (utcnow w) (today w) (randbelow w).

(** The documents of a collection; a collection that does not exist
    reads as empty. *)
Definition collection (st : store) (col : string) : list document :=
  default [] (st !! col).

(** *** The handler monad: exceptions over a threaded world *)

Definition M (A : Type) : Type := World -> (exn + A) * World.

Definition ret {A} (a : A) : M A := fun w => (inr a, w).

Definition bind {A B} (c : M A) (k : A -> M B) : M B :=
  fun w =>
    match c w with
    | (inr a, w') => k a w'
    | (inl e, w') => (inl e, w')
    end.

Definition raise {A} (e : exn) : M A := fun w => (inl e, w).

(** [try: c  except Exception: h] *)
Definition try_except {A} (c : M A) (h : exn -> M A) : M A :=
  fun w =>
    match c w with
    | (inr a, w') => (inr a, w')
    | (inl e, w') => h e w'
    end.

Definition ask {A} (f : World -> A) : M A := fun w => (inr (f w), w).

Declare Scope py_scope.
Delimit Scope py_scope with py.
Notation "x <- c ;; k" := (bind c (fun x => k))
  (at level 100, c at next level, right associativity) : py_scope.
Notation "c ;; k" := (bind c (fun _ => k))
  (at level 100, right associativity) : py_scope.
Local Open Scope py_scope.

(** *** The driver *)

(** A call on a collection of [db]: subscripting an unset handle is a
    [TypeError]; otherwise the call is logged and either faults or reads
    the store. *)
Definition driver_read {A} (c : driver_call) (f : store -> A) : M A :=
  fun w =>
    match db w with
    | None => (inl (PyError "TypeError"), w)
    | Some st =>
        if faults w c then (inl (PyError "PyMongoError"), log_call c w)
        else (inr (f st), log_call c w)
    end.

Definition has_id (oid : N) (d : document) : bool :=
  match dict_get "_id" d with
  | Some (PObjectId o) => N.eqb o oid
  | _ => false
  end.

(** [db[col].find_one({"_id": oid})] *)
Definition find_one (col : string) (oid : N) : M (option document) :=
  driver_read (FindOne col oid)
    (fun st => List.find (has_id oid) (collection st col)).

(** [db[col].count_documents({})] *)
Definition count_documents (col : string) : M Z :=
  driver_read (CountDocuments col)
    (fun st => Z.of_nat (length (collection st col))).

(** The projection [{field: 1}]: the identifier and that field only. *)
Definition project (field : string) (d : document) : document :=
  List.filter
    (fun kv => String.eqb (fst kv) "_id" || String.eqb (fst kv) field) d.

(** [list(db[col].find({}, {field: 1}).limit(n))] *)
Definition find_projected (col field : string) (n : nat)
  : M (list document) :=
  driver_read (Find col)
    (fun st => firstn n (List.map (project field) (collection st col))).

(** [db.list_collection_names()] *)
Definition list_collection_names : M (list string) :=
  driver_read ListCollectionNames (fun st => (map_to_list st).*1).

(** One more document in the group of key [k]. *)
Fixpoint bump (k : pyval) (groups : list (pyval * Z)) : list (pyval * Z) :=
  match groups with
  | [] => [(k, 1)]
  | (k', n) :: gs =>
      if pyval_eqb k k' then (k', n + 1) :: gs else (k', n) :: bump k gs
  end.

(** [{"$group": {"_id": "$field", "count": {"$sum": 1}}}]; a document
    without the field falls in the group of the null key. *)
Definition group_count (field : string) (docs : list document)
  : list document :=
  List.map (fun g => [("_id", fst g); ("count", PInt (snd g))])
    (fold_left (fun gs d => bump (py_get field d) gs) docs []).

(** [db[col].aggregate([{"$group": ...}])] *)
Definition aggregate_group (col field : string) : M (list document) :=
  driver_read (Aggregate col)
    (fun st => group_count field (collection st col)).

(** Modelled from the spec: [create_document] of the absent [database]
    module, the Document Store Gateway's create operation: it persists
    the given mapping as one new document of the named collection and
    returns the newly assigned storage identifier as text. Nothing is
    written when the handle is unset or the insert faults. *)
Definition create_document (col : string) (data : document) : M string :=
  fun w =>
    match db w with
    | None => (inl (PyError "Exception"), w)
    | Some st =>
        let w1 := log_call (InsertOne col) w in
        if faults w (InsertOne col) then (inl (PyError "PyMongoError"), w1)
        else
          let oid := (next_oid w mod 2 ^ 96)%N in
          let doc := ("_id", PObjectId oid) :: data in
          (inr (oid_str oid),
           put_store (<[col := (collection st col ++ [doc])%list]> st)
                     (next_oid w + 1)%N w1)
    end.

(* ===================================================================== *)
(** ** Schema registry ([schemas.py]) *)
(* ===================================================================== *)

(** One field of a request body after decoding against the declared
    type of the field: the key is missing, it is [null], it carries a
    value of the declared type, or it carries something that is not of
    that type. *)
Inductive raw (A : Type) :=
| Absent
| Null
| Given (a : A)
| Malformed.
Arguments Absent {A}.
Arguments Null {A}.
Arguments Given {A} a.
Arguments Malformed {A}.

(** [name: T] (or [Field(...)]): required and not nullable. *)
Definition required {A} (name : string) (r : raw A) : string + A :=
  match r with
  | Given a => inr a
  | _ => inl name
  end.

(** [name: T = d]: a default for a missing key; [null] is refused. *)
Definition defaulted {A} (name : string) (d : A) (r : raw A) : string + A :=
  match r with
  | Absent => inr d
  | Given a => inr a
  | _ => inl name
  end.

(** [name: Optional[T] = Field(d, <constraints>)]: the default for a
    missing key (defaults are not validated), [None] for [null], and a
    given value must satisfy the constraints. *)
Definition optional {A} (name : string) (d : option A) (ok : A -> bool)
    (r : raw A) : string + option A :=
  match r with
  | Absent => inr d
  | Null => inr None
  | Given a => if ok a then inr (Some a) else inl name
  | Malformed => inl name
  end.

(** [name: Literal[...] = d]: a closed enumeration with a default. *)
Definition literal {E} (name : string) (parse : string -> option E) (d : E)
    (r : raw string) : string + E :=
  match r with
  | Absent => inr d
  | Given s => match parse s with Some e => inr e | None => inl name end
  | _ => inl name
  end.

Definition unconstrained {A} (_ : A) : bool := true.

(** [ge=lo, le=hi] on an [int]. *)
Definition int_range (lo hi : Z) (z : Z) : bool :=
  negb (z <? lo) && negb (hi <? z).

(** [ge=lo, le=hi] on a [float]: refused when below [lo] or above [hi]. *)
Definition float_range (lo hi : float) (x : float) : bool :=
  negb (PrimFloat.ltb x lo) && negb (PrimFloat.ltb hi x).

(** [ge=lo] on an [int]. *)
Definition int_ge (lo : Z) (z : Z) : bool := negb (z <? lo).

(** Validation reports every offending field, not only the first. *)
Definition vap {A B} (f : list string + (A -> B)) (x : string + A)
  : list string + B :=
  match f, x with
  | inr g, inr a => inr (g a)
  | inr _, inl e => inl [e]
  | inl es, inr _ => inl es
  | inl es, inl e => inl (es ++ [e])%list
  end.

Notation "f <*> x" := (vap f x) (at level 50, left associativity) : py_scope.

Definition dump_opt {A} (f : A -> pyval) (o : option A) : pyval :=
  match o with Some a => f a | None => PNone end.

Module Patient.

Record t := mk {
  matergui_id : option string;
  first_name : string;
  last_name : string;
  date_of_birth : option date;
  phone : option string;
  address : option string;
  national_id : option string;
  facility_id : option string;
  face_template_id : option string;
  fingerprint_template_id : option string
}.

Record body := mkBody {
  in_matergui_id : raw string;
  in_first_name : raw string;
  in_last_name : raw string;
  in_date_of_birth : raw date;
  in_phone : raw string;
  in_address : raw string;
  in_national_id : raw string;
  in_facility_id : raw string;
  in_face_template_id : raw string;
  in_fingerprint_template_id : raw string
}.

Definition validate (b : body) : list string + t :=
  inr mk
  <*> optional "matergui_id" None unconstrained (in_matergui_id b)
  <*> required "first_name" (in_first_name b)
  <*> required "last_name" (in_last_name b)
  <*> optional "date_of_birth" None unconstrained (in_date_of_birth b)
  <*> optional "phone" None unconstrained (in_phone b)
  <*> optional "address" None unconstrained (in_address b)
  <*> optional "national_id" None unconstrained (in_national_id b)
  <*> optional "facility_id" None unconstrained (in_facility_id b)
  <*> optional "face_template_id" None unconstrained (in_face_template_id b)
  <*> optional "fingerprint_template_id" None unconstrained
        (in_fingerprint_template_id b).

Definition model_dump (p : t) : document :=
  [ ("matergui_id", dump_opt PStr (matergui_id p));
    ("first_name", PStr (first_name p));
    ("last_name", PStr (last_name p));
    ("date_of_birth", dump_opt PDate (date_of_birth p));
    ("phone", dump_opt PStr (phone p));
    ("address", dump_opt PStr (address p));
    ("national_id", dump_opt PStr (national_id p));
    ("facility_id", dump_opt PStr (facility_id p));
    ("face_template_id", dump_opt PStr (face_template_id p));
    ("fingerprint_template_id", dump_opt PStr (fingerprint_template_id p)) ].

End Patient.

Module Pregnancy.

Inductive RiskLevel := faible | modere | eleve.
Inductive Status := en_cours | accouchement | terminee.

Definition parse_risk_level (s : string) : option RiskLevel :=
  if String.eqb s "faible" then Some faible
  else if String.eqb s "modere" then Some modere
  else if String.eqb s "eleve" then Some eleve
  else None.

Definition risk_level_str (r : RiskLevel) : string :=
  match r with faible => "faible" | modere => "modere" | eleve => "eleve" end.

Definition parse_status (s : string) : option Status :=
  if String.eqb s "en_cours" then Some en_cours
  else if String.eqb s "accouchement" then Some accouchement
  else if String.eqb s "terminee" then Some terminee
  else None.

Definition status_str (s : Status) : string :=
  match s with
  | en_cours => "en_cours"
  | accouchement => "accouchement"
  | terminee => "terminee"
  end.

Record t := mk {
  patient_id : string;
  lmp : option date;
  expected_due_date : option date;
  parity : option Z;
  gravida : option Z;
  risk_level : RiskLevel;
  status : Status
}.

Record body := mkBody {
  in_patient_id : raw string;
  in_lmp : raw date;
  in_expected_due_date : raw date;
  in_parity : raw Z;
  in_gravida : raw Z;
  in_risk_level : raw string;
  in_status : raw string
}.

Definition validate (b : body) : list string + t :=
  inr mk
  <*> required "patient_id" (in_patient_id b)
  <*> optional "lmp" None unconstrained (in_lmp b)
  <*> optional "expected_due_date" None unconstrained
        (in_expected_due_date b)
  <*> optional "parity" (Some 0) (int_ge 0) (in_parity b)
  <*> optional "gravida" (Some 1) (int_ge 1) (in_gravida b)
  <*> literal "risk_level" parse_risk_level faible (in_risk_level b)
  <*> literal "status" parse_status en_cours (in_status b).

Definition model_dump (p : t) : document :=
  [ ("patient_id", PStr (patient_id p));
    ("lmp", dump_opt PDate (lmp p));
    ("expected_due_date", dump_opt PDate (expected_due_date p));
    ("parity", dump_opt PInt (parity p));
    ("gravida", dump_opt PInt (gravida p));
    ("risk_level", PStr (risk_level_str (risk_level p)));
    ("status", PStr (status_str (status p))) ].

End Pregnancy.

Module Visit.

Record t := mk {
  pregnancy_id : string;
  visit_date : date;
  blood_pressure_systolic : option Z;
  blood_pressure_diastolic : option Z;
  weight_kg : option float;
  fundal_height_cm : option float;
  foetal_heart_rate : option Z;
  symptoms : option string;
  notes : option string;
  prescriptions : option (list string)
}.

Record body := mkBody {
  in_pregnancy_id : raw string;
  in_visit_date : raw date;
  in_blood_pressure_systolic : raw Z;
  in_blood_pressure_diastolic : raw Z;
  in_weight_kg : raw float;
  in_fundal_height_cm : raw float;
  in_foetal_heart_rate : raw Z;
  in_symptoms : raw string;
  in_notes : raw string;
  in_prescriptions : raw (list string)
}.

(** [visit_date] defaults to [date.today()] read at validation time. *)
Definition validate (today : date) (b : body) : list string + t :=
  inr mk
  <*> required "pregnancy_id" (in_pregnancy_id b)
  <*> defaulted "visit_date" today (in_visit_date b)
  <*> optional "blood_pressure_systolic" None (int_range 50 250)
        (in_blood_pressure_systolic b)
  <*> optional "blood_pressure_diastolic" None (int_range 30 150)
        (in_blood_pressure_diastolic b)
  <*> optional "weight_kg" None (float_range 20 250) (in_weight_kg b)
  <*> optional "fundal_height_cm" None (float_range 0 60)
        (in_fundal_height_cm b)
  <*> optional "foetal_heart_rate" None (int_range 60 200)
        (in_foetal_heart_rate b)
  <*> optional "symptoms" None unconstrained (in_symptoms b)
  <*> optional "notes" None unconstrained (in_notes b)
  <*> optional "prescriptions" None unconstrained (in_prescriptions b).

Definition model_dump (v : t) : document :=
  [ ("pregnancy_id", PStr (pregnancy_id v));
    ("visit_date", PDate (visit_date v));
    ("blood_pressure_systolic", dump_opt PInt (blood_pressure_systolic v));
    ("blood_pressure_diastolic", dump_opt PInt (blood_pressure_diastolic v));
    ("weight_kg", dump_opt PFloat (weight_kg v));
    ("fundal_height_cm", dump_opt PFloat (fundal_height_cm v));
    ("foetal_heart_rate", dump_opt PInt (foetal_heart_rate v));
    ("symptoms", dump_opt PStr (symptoms v));
    ("notes", dump_opt PStr (notes v));
    ("prescriptions",
     dump_opt (fun l => PList (List.map PStr l)) (prescriptions v)) ].

End Visit.

Module Appointment.

Inductive Status := planifie | honore | annule | manque.

Definition parse_status (s : string) : option Status :=
  if String.eqb s "planifie" then Some planifie
  else if String.eqb s "honore" then Some honore
  else if String.eqb s "annule" then Some annule
  else if String.eqb s "manque" then Some manque
  else None.

Definition status_str (s : Status) : string :=
  match s with
  | planifie => "planifie"
  | honore => "honore"
  | annule => "annule"
  | manque => "manque"
  end.

Record t := mk {
  patient_id : string;
  appointment_date : datetime;
  reason : option string;
  status : Status
}.

Record body := mkBody {
  in_patient_id : raw string;
  in_appointment_date : raw datetime;
  in_reason : raw string;
  in_status : raw string
}.

Definition validate (b : body) : list string + t :=
  inr mk
  <*> required "patient_id" (in_patient_id b)
  <*> required "appointment_date" (in_appointment_date b)
  <*> optional "reason" None unconstrained (in_reason b)
  <*> literal "status" parse_status planifie (in_status b).

Definition model_dump (a : t) : document :=
  [ ("patient_id", PStr (patient_id a));
    ("appointment_date", PDatetime (appointment_date a));
    ("reason", dump_opt PStr (reason a));
    ("status", PStr (status_str (status a))) ].

End Appointment.

Module Alert.

Inductive Type_ := urgence | rappel | risque.

Definition parse_type (s : string) : option Type_ :=
  if String.eqb s "urgence" then Some urgence
  else if String.eqb s "rappel" then Some rappel
  else if String.eqb s "risque" then Some risque
  else None.

Definition type_str (t : Type_) : string :=
  match t with
  | urgence => "urgence"
  | rappel => "rappel"
  | risque => "risque"
  end.

Record t := mk {
  patient_id : string;
  type : Type_;
  message : string;
  created_by : option string
}.

Record body := mkBody {
  in_patient_id : raw string;
  in_type : raw string;
  in_message : raw string;
  in_created_by : raw string
}.

Definition validate (b : body) : list string + t :=
  inr mk
  <*> required "patient_id" (in_patient_id b)
  <*> literal "type" parse_type rappel (in_type b)
  <*> required "message" (in_message b)
  <*> optional "created_by" None unconstrained (in_created_by b).

Definition model_dump (a : t) : document :=
  [ ("patient_id", PStr (patient_id a));
    ("type", PStr (type_str (type a)));
    ("message", PStr (message a));
    ("created_by", dump_opt PStr (created_by a)) ].

End Alert.

(* ===================================================================== *)
(** ** Handlers ([main.py]) *)
(* ===================================================================== *)

(** [t.strftime("%Y%m%d")]: the year in decimal, month and day on two
    digits each. *)
Definition strftime_Ymd (t : datetime) : string :=
  string_of_list_ascii
    (dec (year (dt_date t))
     ++ zfill 2 (dec (month (dt_date t)))
     ++ zfill 2 (dec (day (dt_date t))))%list.

(** [f"{n:06d}"] for [n >= 0]. *)
Definition format_06d (n : Z) : string :=
  string_of_list_ascii (zfill 6 (dec n)).

Definition generate_matergui_id : M string :=
  now <- ask utcnow ;;
  let today := strftime_Ymd now in
  r <- ask (fun w => randbelow w (10 ^ 6)) ;;
  let suffix := format_06d r in
  ret ("MGU-" +:+ today +:+ "-" +:+ suffix).

Definition ensure_db : M unit :=
  fun w =>
    match db w with
    | None =>
        (inl (HTTPException 500
           "Database not available. Ensure DATABASE_URL and DATABASE_NAME are set."),
         w)
    | Some _ => (inr tt, w)
    end.

(** [d[k]]: a missing key is a [KeyError]. *)
Definition py_index (d : document) (k : string) : M pyval :=
  match dict_get k d with
  | Some v => ret v
  | None => raise (PyError "KeyError")
  end.

Definition create_patient (payload : Patient.t) : M document :=
  ensure_db ;;
  let data := Patient.model_dump payload in
  data <- (if negb (truthy (py_get "matergui_id" data))
           then (mid <- generate_matergui_id ;;
                 ret (dict_set "matergui_id" (PStr mid) data))
           else ret data) ;;
  new_id <- create_document "patient" data ;;
  mid <- py_index data "matergui_id" ;;
  ret [("id", PStr new_id); ("matergui_id", mid)].

Definition create_pregnancy (payload : Pregnancy.t) : M document :=
  ensure_db ;;
  let patient_id := Pregnancy.patient_id payload in
  pid <- match ObjectId patient_id with
         | Some pid => ret pid
         | None => raise (HTTPException 400 "patient_id invalide")
         end ;;
  patient <- find_one "patient" pid ;;
  match patient with
  | None => raise (HTTPException 404 "Patient introuvable")
  | Some _ =>
      new_id <- create_document "pregnancy" (Pregnancy.model_dump payload) ;;
      ret [("id", PStr new_id)]
  end.

Definition create_visit (payload : Visit.t) : M document :=
  ensure_db ;;
  preg <- try_except
            (match ObjectId (Visit.pregnancy_id payload) with
             | Some oid => find_one "pregnancy" oid
             | None => raise (PyError "InvalidId")
             end)
            (fun _ => raise (HTTPException 400 "pregnancy_id invalide")) ;;
  match preg with
  | None => raise (HTTPException 404 "Grossesse introuvable")
  | Some _ =>
      new_id <- create_document "visit" (Visit.model_dump payload) ;;
      ret [("id", PStr new_id)]
  end.

Definition create_appointment (payload : Appointment.t) : M document :=
  ensure_db ;;
  new_id <- create_document "appointment" (Appointment.model_dump payload) ;;
  ret [("id", PStr new_id)].

Definition create_alert (payload : Alert.t) : M document :=
  ensure_db ;;
  new_id <- create_document "alert" (Alert.model_dump payload) ;;
  ret [("id", PStr new_id)].

(** *** Dashboard *)

Record stats := mkStats {
  patients : Z;
  pregnancies : Z;
  visits : Z;
  appointments : Z;
  alerts : Z;
  due_this_month : Z;
  facilities_by_region : list document
}.

(** The local [count] of [get_stats]. *)
Definition count (col : string) : M Z :=
  try_except (count_documents col) (fun _ => ret 0).

(** [edd.year], [edd.month]: only dates have them. *)
Definition attr_year (v : pyval) : M Z :=
  match v with
  | PDate d => ret (year d)
  | PDatetime t => ret (year (dt_date t))
  | _ => raise (PyError "AttributeError")
  end.

Definition attr_month (v : pyval) : M Z :=
  match v with
  | PDate d => ret (month d)
  | PDatetime t => ret (month (dt_date t))
  | _ => raise (PyError "AttributeError")
  end.

(** One turn of the loop over [recent_pregnancies]. *)
Definition due_step (today : date) (p : document) (due : Z) : M Z :=
  let edd := py_get "expected_due_date" p in
  let edd := match edd with PDatetime t => PDate (dt_date t) | _ => edd end in
  if truthy edd then
    y <- attr_year edd ;;
    if y =? year today then
      m <- attr_month edd ;;
      if m =? month today then ret (due + 1) else ret due
    else ret due
  else ret due.

Fixpoint due_loop (today : date) (ps : list document) (due : Z) : M Z :=
  match ps with
  | [] => ret due
  | p :: ps' => due' <- due_step today p due ;; due_loop today ps' due'
  end.

Definition get_stats : M stats :=
  ensure_db ;;
  recent_pregnancies <- find_projected "pregnancy" "expected_due_date" 200 ;;
  due_this_month <-
    match recent_pregnancies with
    | [] => ret 0
    | _ => today <- ask today ;; due_loop today recent_pregnancies 0
    end ;;
  names <- list_collection_names ;;
  regions <- (if existsb (String.eqb "facility") names
              then aggregate_group "facility" "region"
              else ret []) ;;
  n_patients <- count "patient" ;;
  n_pregnancies <- count "pregnancy" ;;
  n_visits <- count "visit" ;;
  n_appointments <- count "appointment" ;;
  n_alerts <- count "alert" ;;
  ret (mkStats n_patients n_pregnancies n_visits n_appointments n_alerts
         due_this_month regions).

(* ===================================================================== *)
(** ** The application: routing, body validation, error translation *)
(* ===================================================================== *)

Inductive content :=
| Object (d : document)
| Stats (s : stats)
| Detail (s : string)
| ValidationErrors (fields : list string).

Record response := mkResponse { status : Z; body : content }.

(** What the framework makes of a handler's outcome: the returned value
    with status 200, an [HTTPException] with its own status and detail,
    and a 500 for any other exception. *)
Definition respond {A} (wrap : A -> content) (r : (exn + A) * World)
  : response * World :=
  match r with
  | (inr a, w) => (mkResponse 200 (wrap a), w)
  | (inl (HTTPException c d), w) => (mkResponse c (Detail d), w)
  | (inl (PyError _), w) => (mkResponse 500 (Detail "Internal Server Error"), w)
  end.

(** A route whose handler takes a model parameter: the body is validated
    first, and the handler runs only on a body that validates; a body
    that does not is answered 422 with the offending fields. *)
Definition with_body {P} (validated : list string + P)
    (handler : P -> M document) (w : World) : response * World :=
  match validated with
  | inl fields => (mkResponse 422 (ValidationErrors fields), w)
  | inr payload => respond Object (handler payload w)
  end.

Inductive request :=
| PostPatients (b : Patient.body)
| PostPregnancies (b : Pregnancy.body)
| PostVisits (b : Visit.body)
| PostAppointments (b : Appointment.body)
| PostAlerts (b : Alert.body)
| GetStats.

Definition app (req : request) (w : World) : response * World :=
  match req with
  | PostPatients b => with_body (Patient.validate b) create_patient w
  | PostPregnancies b => with_body (Pregnancy.validate b) create_pregnancy w
  | PostVisits b => with_body (Visit.validate (today w) b) create_visit w
  | PostAppointments b =>
      with_body (Appointment.validate b) create_appointment w
  | PostAlerts b => with_body (Alert.validate b) create_alert w
  | GetStats => respond Stats (get_stats w)
  end.

(* ===================================================================== *)
(** ** Vocabulary of the specification *)
(* ===================================================================== *)

(** A storage identifier resolves in a collection when some document of
    the collection carries it as its [_id]. *)
Definition resolves (st : store) (col : string) (oid : N) : Prop :=
  exists d, In d (collection st col)
            /\ dict_get "_id" d = Some (PObjectId oid).

(** The endpoints that write. *)
Definition mutating (req : request) : bool :=
  match req with
  | GetStats => false
  | _ => true
  end.

(** Whether the body of a request passes its schema. *)
Definition is_valid {A} (v : list string + A) : bool :=
  match v with inr _ => true | inl _ => false end.


Definition service_unavailable : response :=
  mkResponse 500
    (Detail "Database not available. Ensure DATABASE_URL and DATABASE_NAME are set.").






(** A stored field that is an integer not below [lo]. *)
Definition int_at_least (lo : Z) (v : pyval) : Prop :=
  exists z, v = PInt z /\ lo <= z.

(** The expected due date of a stored pregnancy falls in the calendar
    month of [today]. *)
Definition due_in_month (today : date) (d : document) : bool :=
  match py_get "expected_due_date" d with
  | PDate x => (year x =? year today) && (month x =? month today)
  | PDatetime t =>
      (year (dt_date t) =? year today) && (month (dt_date t) =? month today)
  | _ => false
  end.

Definition count_due (today : date) (docs : list document) : Z :=
  Z.of_nat (length (List.filter (due_in_month today) docs)).

(** The expected due date of a stored document is a date, a datetime, or
    a value that tests false (missing, [None], empty). *)
Definition edd_date_or_falsy (d : document) : bool :=
  match py_get "expected_due_date" d with
  | PDate _ | PDatetime _ => true
  | v => negb (truthy v)
  end.

(** What the guarded [count] makes of a collection. *)
Definition recovered_count (w : World) (st : store) (col : string) : Z :=
  if faults w (CountDocuments col) then 0
  else Z.of_nat (length (collection st col)).

Definition reported_stats (r : response) : option stats :=
  match body r with Stats s => Some s | _ => None end.

(** The clock shows a year that [%Y] prints on four digits, and a month
    and day of the calendar. *)
Definition four_digit_year (t : datetime) : Prop :=
  1000 <= year (dt_date t) <= 9999
  /\ 1 <= month (dt_date t) <= 12
  /\ 1 <= day (dt_date t) <= 31.

Definition yyyymmdd (t : datetime) : Z :=
  year (dt_date t) * 10000 + month (dt_date t) * 100 + day (dt_date t).

(** The identifier [generate_matergui_id] builds from the clock and the
    random draw of a world. *)
Definition matergui_id_at (w : World) : string :=
  "MGU-" +:+ strftime_Ymd (utcnow w) +:+ "-"
  +:+ format_06d (randbelow w (10 ^ 6)).

(** *** Sample data *)

Definition noon_15_march_2024 : datetime :=
  mkDatetime (mkDate 2024 3 15) 43200000000.

Definition no_fault (c : driver_call) : bool := false.

Definition sample_patient : document :=
  [("_id", PObjectId 7); ("first_name", PStr "Aissatou");
   ("last_name", PStr "Camara")].

Definition sample_store : store := {[ "patient" := [sample_patient] ]}.

Definition sample_world : World :=
  mkWorld (Some sample_store) no_fault [] 100 noon_15_march_2024
          (mkDate 2024 3 15) (fun n => 42 mod n).

Definition unset_world : World :=
  mkWorld None no_fault [] 100 noon_15_march_2024
          (mkDate 2024 3 15) (fun n => 42 mod n).

Definition pregnancy_of (pid : string) : Pregnancy.body :=
  Pregnancy.mkBody (Given pid) Absent (Given (mkDate 2024 3 28))
                   Absent Absent Absent Absent.

Definition pregnancy_null_parity : Pregnancy.body :=
  Pregnancy.mkBody (Given (oid_str 7)) Absent Absent Null Absent
                   Absent Absent.

Definition patient_named (mid : raw string) : Patient.body :=
  Patient.mkBody mid (Given "Aissatou") (Given "Camara") Absent Absent
                 Absent Absent Absent Absent Absent.

Definition visit_systolic (z : Z) : Visit.body :=
  Visit.mkBody (Given (oid_str 9)) Absent (Given z) Absent Absent Absent
               Absent Absent Absent Absent.

Definition alert_with (ty msg : raw string) : Alert.body :=
  Alert.mkBody (Given (oid_str 7)) ty msg Absent.

(** 201 pregnancies, all due in March 2024. *)
Definition many_pregnancies : list document :=
  List.map
    (fun i => [("_id", PObjectId (N.of_nat i));
               ("expected_due_date", PDate (mkDate 2024 3 20))])
    (seq 1 201).

Definition crowded_world : World :=
  mkWorld (Some {[ "pregnancy" := many_pregnancies ]}) no_fault [] 1000
          noon_15_march_2024 (mkDate 2024 3 15) (fun n => 42 mod n).

(** The store answers everything but the count of visits. *)
Definition visits_count_fails (c : driver_call) : bool :=
  match c with
  | CountDocuments col => String.eqb col "visit"
  | _ => false
  end.

Definition degraded_world : World :=
  mkWorld (Some sample_store) visits_count_fails [] 100 noon_15_march_2024
          (mkDate 2024 3 15) (fun n => 42 mod n).

(* ===================================================================== *)
(** ** Further vocabulary: outcomes of a request *)
(* ===================================================================== *)

(** [GET /schema]: the collections the service declares. *)
Definition get_schema_definitions : list string :=
  ["user"; "facility"; "patient"; "pregnancy"; "visit"; "appointment";
   "alert"].

(** The collection a request writes to, if it writes at all. *)
Definition collection_of (req : request) : option string :=
  match req with
  | PostPatients _ => Some "patient"
  | PostPregnancies _ => Some "pregnancy"
  | PostVisits _ => Some "visit"
  | PostAppointments _ => Some "appointment"
  | PostAlerts _ => Some "alert"
  | GetStats => None
  end.

(** The storage identifier a world hands out next. *)
Definition fresh_oid (w : World) : N := (next_oid w mod 2 ^ 96)%N.

Definition returned_object (r : response) : document :=
  match body r with Object d => d | _ => [] end.

(** The request was admitted: answered 200 with the text of the fresh
    storage identifier, and [data], under that identifier, is the one
    document added to the store, at the end of [col]. *)
Definition admitted (col : string) (data : document) (w : World)
    (r : response * World) : Prop :=
  exists st,
    db w = Some st
    /\ status (fst r) = 200
    /\ dict_get "id" (returned_object (fst r))
       = Some (PStr (oid_str (fresh_oid w)))
    /\ db (snd r)
       = Some (<[col := (collection st col
                         ++ [("_id", PObjectId (fresh_oid w)) :: data])%list]> st)
    /\ next_oid (snd r) = (next_oid w + 1)%N.

(** The request was refused: not answered 200, and the store is as it
    was. *)
Definition refused (w : World) (r : response * World) : Prop :=
  status (fst r) <> 200
  /\ db (snd r) = db w
  /\ next_oid (snd r) = next_oid w.

(** The public identifier a patient ends up with: the supplied one when
    it is a non-empty string, the generated one otherwise. *)
Definition assigned_matergui_id (p : Patient.t) (w : World) : string :=
  match Patient.matergui_id p with
  | Some s => if String.eqb s "" then matergui_id_at w else s
  | None => matergui_id_at w
  end.



(** A computation that leaves the store and its identifier counter as
    they were, whatever it returns or raises. *)
Definition read_only {A} (c : M A) : Prop :=
  forall w, db (snd (c w)) = db w /\ next_oid (snd (c w)) = next_oid w.

(** Whether one field validated. *)
Definition accepted {A} (x : string + A) : bool :=
  match x with inr _ => true | inl _ => false end.

(** Readings of the field declarations, on the decoded body. *)
Definition raw_required {A} (r : raw A) : Prop := exists a, r = Given a.

Definition raw_defaulted {A} (r : raw A) : Prop :=
  r = Absent \/ exists a, r = Given a.

Definition raw_optional {A} (r : raw A) : Prop := r <> Malformed.

Definition raw_int_in (lo hi : Z) (r : raw Z) : Prop :=
  match r with
  | Absent | Null => True
  | Given z => lo <= z <= hi
  | Malformed => False
  end.

Definition raw_float_in (lo hi : float) (r : raw float) : Prop :=
  match r with
  | Absent | Null => True
  | Given x => PrimFloat.ltb x lo = false /\ PrimFloat.ltb hi x = false
  | Malformed => False
  end.

(** A supplied float that is a number (not a NaN). *)
Definition is_number (r : raw float) : Prop :=
  forall x, r = Given x -> PrimFloat.eqb x x = true.

(** A stored enumeration field: one of [values], the default when the
    body omits it, and the supplied text otherwise. *)
Definition stored_literal (values : list string) (default : string)
    (r : raw string) (v : pyval) : Prop :=
  exists s, v = PStr s /\ In s values
            /\ (r = Absent -> s = default)
            /\ (forall s', r = Given s' -> s = s').

(* ===================================================================== *)
(** ** The remaining schemas and the diagnostic route *)
(* ===================================================================== *)

Module User.

Inductive Role := agent | medecin | sage_femme | patiente | admin | ministere.

Definition parse_role (s : string) : option Role :=
  if String.eqb s "agent" then Some agent
  else if String.eqb s "medecin" then Some medecin
  else if String.eqb s "sage_femme" then Some sage_femme
  else if String.eqb s "patiente" then Some patiente
  else if String.eqb s "admin" then Some admin
  else if String.eqb s "ministere" then Some ministere
  else None.

Definition role_str (r : Role) : string :=
  match r with
  | agent => "agent"
  | medecin => "medecin"
  | sage_femme => "sage_femme"
  | patiente => "patiente"
  | admin => "admin"
  | ministere => "ministere"
  end.

Record t := mk {
  full_name : string;
  email : option string;
  phone : option string;
  role : Role;
  facility_id : option string;
  is_active : bool
}.

Record body := mkBody {
  in_full_name : raw string;
  in_email : raw string;
  in_phone : raw string;
  in_role : raw string;
  in_facility_id : raw string;
  in_is_active : raw bool
}.

Definition validate (b : body) : list string + t :=
  inr mk
  <*> required "full_name" (in_full_name b)
  <*> optional "email" None unconstrained (in_email b)
  <*> optional "phone" None unconstrained (in_phone b)
  <*> literal "role" parse_role agent (in_role b)
  <*> optional "facility_id" None unconstrained (in_facility_id b)
  <*> defaulted "is_active" true (in_is_active b).

Definition model_dump (u : t) : document :=
  [ ("full_name", PStr (full_name u));
    ("email", dump_opt PStr (email u));
    ("phone", dump_opt PStr (phone u));
    ("role", PStr (role_str (role u)));
    ("facility_id", dump_opt PStr (facility_id u));
    ("is_active", PBool (is_active u)) ].

End User.

Module Facility.

Inductive Type_ :=
| centre_sante | hopital | clinique_privee | clinique_publique | autre.

Definition parse_type (s : string) : option Type_ :=
  if String.eqb s "centre_sante" then Some centre_sante
  else if String.eqb s "hopital" then Some hopital
  else if String.eqb s "clinique_privee" then Some clinique_privee
  else if String.eqb s "clinique_publique" then Some clinique_publique
  else if String.eqb s "autre" then Some autre
  else None.

Definition type_str (t : Type_) : string :=
  match t with
  | centre_sante => "centre_sante"
  | hopital => "hopital"
  | clinique_privee => "clinique_privee"
  | clinique_publique => "clinique_publique"
  | autre => "autre"
  end.

Record t := mk {
  name : string;
  type : Type_;
  region : option string;
  district : option string;
  address : option string;
  code : option string
}.

Record body := mkBody {
  in_name : raw string;
  in_type : raw string;
  in_region : raw string;
  in_district : raw string;
  in_address : raw string;
  in_code : raw string
}.

Definition validate (b : body) : list string + t :=
  inr mk
  <*> required "name" (in_name b)
  <*> literal "type" parse_type centre_sante (in_type b)
  <*> optional "region" None unconstrained (in_region b)
  <*> optional "district" None unconstrained (in_district b)
  <*> optional "address" None unconstrained (in_address b)
  <*> optional "code" None unconstrained (in_code b).

Definition model_dump (f : t) : document :=
  [ ("name", PStr (name f));
    ("type", PStr (type_str (type f)));
    ("region", dump_opt PStr (region f));
    ("district", dump_opt PStr (district f));
    ("address", dump_opt PStr (address f));
    ("code", dump_opt PStr (code f)) ].

End Facility.

(** [str(e)]: of an exception only the class name is kept, and it
    stands for its text. *)
Definition exn_text (e : exn) : string :=
  match e with
  | HTTPException _ d => d
  | PyError name => name
  end.

(** The truth value of [os.getenv(k)]: set, and not to the empty text. *)
Definition env_set (o : option string) : bool :=
  match o with
  | Some s => negb (String.eqb s "")
  | None => false
  end.

(** [os.getenv(k) or d] *)
Definition getenv_or (d : string) (o : option string) : string :=
  match o with
  | Some s => if String.eqb s "" then d else s
  | None => d
  end.

Definition initial_diagnostic : document :=
  [ ("backend", PStr "✅ Running");
    ("database", PStr "❌ Not Available");
    ("database_url", PStr "❌ Not Set");
    ("database_name", PStr "❌ Not Set");
    ("connection_status", PStr "Not Connected");
    ("collections", PList []) ].

(** [GET /test]. [getenv] is [os.getenv]. Nothing outside the inner
    [try] can raise, so the outer handler is never entered. *)
Definition test_database (getenv : string -> option string) : M document :=
  let response := initial_diagnostic in
  try_except
    (fun w =>
       match db w with
       | None => ret response w
       | Some _ =>
           let response :=
             dict_set "database" (PStr "✅ Connected & Working") response in
           let response :=
             dict_set "database_url"
               (PStr (if env_set (getenv "DATABASE_URL")
                      then "✅ Set" else "❌ Not Set"))
               response in
           let response :=
             dict_set "database_name"
               (PStr (getenv_or "❌ Not Set" (getenv "DATABASE_NAME")))
               response in
           let response :=
             dict_set "connection_status" (PStr "Connected") response in
           try_except
             (names <- list_collection_names ;;
              ret (dict_set "collections"
                     (PList (List.map PStr (firstn 20 names))) response))
             (fun e =>
                ret (dict_set "database"
                       (PStr ("⚠️ Connected but error listing collections: "
                              +:+ substring 0 80 (exn_text e)))
                       response))
             w
       end)
    (fun e =>
       ret (dict_set "database"
              (PStr ("❌ Error: " +:+ substring 0 80 (exn_text e)))
              response)).

(** *** Further sample data *)

Definition sample_pregnancy : document :=
  [("_id", PObjectId 9); ("patient_id", PStr (oid_str 7));
   ("expected_due_date", PDate (mkDate 2024 3 28))].

(** A store with one patient and one pregnancy. *)
Definition clinic_store : store :=
  <["pregnancy" := [sample_pregnancy]]> sample_store.

Definition clinic_world : World :=
  mkWorld (Some clinic_store) no_fault [] 100 noon_15_march_2024
          (mkDate 2024 3 15) (fun n => 42 mod n).

(** The store answers no lookup by identifier. *)
Definition lookups_fail (c : driver_call) : bool :=
  match c with
  | FindOne _ _ => true
  | _ => false
  end.

Definition lookup_fault_world : World :=
  mkWorld (Some clinic_store) lookups_fail [] 100 noon_15_march_2024
          (mkDate 2024 3 15) (fun n => 42 mod n).

(** The store answers no scan. *)
Definition scans_fail (c : driver_call) : bool :=
  match c with
  | Find _ => true
  | _ => false
  end.

Definition scan_fault_world : World :=
  mkWorld (Some clinic_store) scans_fail [] 100 noon_15_march_2024
          (mkDate 2024 3 15) (fun n => 42 mod n).

(** The store does not list its collections. *)
Definition listing_fails (c : driver_call) : bool :=
  match c with
  | ListCollectionNames => true
  | _ => false
  end.

Definition listing_fault_world : World :=
  mkWorld (Some clinic_store) listing_fails [] 100 noon_15_march_2024
          (mkDate 2024 3 15) (fun n => 42 mod n).

(** A pregnancy whose due date was stored as text. *)
Definition textual_due_world : World :=
  mkWorld
    (Some {[ "pregnancy" :=
               [[("_id", PObjectId 9);
                 ("expected_due_date", PStr "2024-03-28")]] ]})
    no_fault [] 100 noon_15_march_2024 (mkDate 2024 3 15)
    (fun n => 42 mod n).

(** The same clock on the next day, with another draw. *)
Definition next_day_world : World :=
  mkWorld (Some sample_store) no_fault [] 100
          (mkDatetime (mkDate 2024 3 16) 0) (mkDate 2024 3 16)
          (fun n => 43 mod n).

Definition visit_for (pid : string) : Visit.body :=
  Visit.mkBody (Given pid) Absent (Given 120) (Given 80) Absent Absent
               (Given 140) Absent Absent Absent.

Definition appointment_for (pid : string) : Appointment.body :=
  Appointment.mkBody (Given pid) (Given noon_15_march_2024) Absent Absent.

Definition user_named (name : string) (role : raw string) : User.body :=
  User.mkBody (Given name) Absent Absent role Absent Absent.

Definition facility_named (name : string) (ty : raw string) : Facility.body :=
  Facility.mkBody (Given name) ty (Given "Conakry") Absent Absent Absent.

(** A store that holds nothing, so that no patient exists. *)
Definition unknown_patient_world : World :=
  mkWorld (Some ∅) no_fault [] 100 noon_15_march_2024
          (mkDate 2024 3 15) (fun n => 42 mod n).

Local Open Scope list_scope.

(* ===================================================================== *)
(** ** Validation: general facts *)
(* ===================================================================== *)

Lemma vap_inr_inv {A B} (f : list string + (A -> B)) (x : string + A) (b : B) :
  (f <*> x) = inr b -> exists g a, f = inr g /\ x = inr a /\ b = g a.
Proof.
  destruct f as [es | g], x as [e | a]; simpl; intros H; try discriminate.
  injection H as <-. exists g, a. auto.
Qed.




Lemma valid_has_payload {A} (v : list string + A) :
  is_valid v = true -> exists p, v = inr p.
Proof. destruct v; simpl; [discriminate | eauto]. Qed.








(** Reading a validated body back, field by field. *)
Ltac peel H :=
  lazymatch type of H with
  | (_ <*> _) = inr _ =>
      let g := fresh "g" in
      let a := fresh "a" in
      let Hf := fresh "Hf" in
      let Ha := fresh "Ha" in
      let Hb := fresh "Hb" in
      apply vap_inr_inv in H as (g & a & Hf & Ha & Hb); peel Hf
  | inr _ = inr _ => injection H as H
  end.

(* ===================================================================== *)
(** ** Store lookups *)
(* ===================================================================== *)

Lemma has_id_true oid d :
  has_id oid d = true -> dict_get "_id" d = Some (PObjectId oid).
Proof.
  unfold has_id. destruct (dict_get "_id" d) as [[]|]; try discriminate.
  intros H. apply N.eqb_eq in H. now subst.
Qed.

Lemma find_unresolved st col oid :
  ~ resolves st col oid -> List.find (has_id oid) (collection st col) = None.
Proof.
  intros H. destruct (List.find _ _) as [d|] eqn:E; [| reflexivity].
  apply find_some in E as [Hin Hid]. exfalso. apply H.
  exists d. split; [exact Hin | now apply has_id_true].
Qed.

Lemma collection_insert (st : store) col docs :
  collection (<[col := docs]> st) col = docs.
Proof. unfold collection. now rewrite lookup_insert_eq. Qed.

(* ===================================================================== *)
(** ** Referential integrity of POST /pregnancies *)
(* ===================================================================== *)

(** C1. A pregnancy whose [patient_id] is a well-formed storage
    identifier that resolves to no stored patient is answered 404; the
    only driver call made is the lookup, and the store is unchanged. *)
Theorem create_pregnancy_unknown_patient
    (b : Pregnancy.body) (p : Pregnancy.t) (w : World) (st : store)
    (pid : N) :
  Pregnancy.validate b = inr p ->
  db w = Some st ->
  ObjectId (Pregnancy.patient_id p) = Some pid ->
  faults w (FindOne "patient" pid) = false ->
  ~ resolves st "patient" pid ->
  app (PostPregnancies b) w
  = (mkResponse 404 (Detail "Patient introuvable"),
     log_call (FindOne "patient" pid) w)
  /\ db (snd (app (PostPregnancies b) w)) = Some st
  /\ next_oid (snd (app (PostPregnancies b) w)) = next_oid w.
Proof.
  intros Hv Hdb Hoid Hf Hres.
  assert (E : app (PostPregnancies b) w
              = (mkResponse 404 (Detail "Patient introuvable"),
                 log_call (FindOne "patient" pid) w)).
  { unfold app, with_body. rewrite Hv.
    unfold create_pregnancy, bind, ensure_db. rewrite Hdb, Hoid. simpl.
    unfold find_one, driver_read. rewrite Hdb, Hf.
    now rewrite (find_unresolved _ _ _ Hres). }
  rewrite E. simpl. auto.
Qed.

Lemma create_pregnancy_unknown_patient_witness :
  app (PostPregnancies (pregnancy_of (oid_str 8))) sample_world
  = (mkResponse 404 (Detail "Patient introuvable"),
     log_call (FindOne "patient" 8) sample_world)
  /\ db (snd (app (PostPregnancies (pregnancy_of (oid_str 8))) sample_world))
     = Some sample_store
  /\ next_oid (snd (app (PostPregnancies (pregnancy_of (oid_str 8)))
                        sample_world))
     = next_oid sample_world.
Proof.
  apply (create_pregnancy_unknown_patient
           (pregnancy_of (oid_str 8))
           (Pregnancy.mk (oid_str 8) None (Some (mkDate 2024 3 28))
                         (Some 0) (Some 1) Pregnancy.faible
                         Pregnancy.en_cours)
           sample_world sample_store 8%N).
  - reflexivity.
  - reflexivity.
  - vm_compute. reflexivity.
  - reflexivity.
  - intros (d & Hin & Hid). vm_compute in Hin.
    destruct Hin as [<- | []]. vm_compute in Hid. discriminate.
Defined.



(* ===================================================================== *)
(** ** The unset store *)
(* ===================================================================== *)

Lemma ensure_db_first {A} (k : M A) w :
  db w = None ->
  (ensure_db ;; k) w
  = (inl (HTTPException 500
       "Database not available. Ensure DATABASE_URL and DATABASE_NAME are set."),
     w).
Proof. intros Hdb. unfold bind, ensure_db. now rewrite Hdb. Qed.





(* ===================================================================== *)
(** ** Vitals of a visit *)
(* ===================================================================== *)




(* ===================================================================== *)
(** ** Alerts *)
(* ===================================================================== *)





(* ===================================================================== *)
(** ** Decimal text: what [dec] and [zfill] produce *)
(* ===================================================================== *)

Lemma digit_char_spec n :
  0 <= n <= 9 ->
  is_digit (digit_char n) = true /\ digit_val (digit_char n) = n.
Proof.
  intros H. rewrite <- (Z2Nat.id n) by lia.
  assert (K : (Z.to_nat n < 10)%nat) by lia.
  revert K. generalize (Z.to_nat n) as k. intros k K.
  do 10 (destruct k as [| k]; [split; reflexivity |]). lia.
Qed.

Lemma digits_value_from (l : chars) (v : Z) :
  fold_left (fun v c => 10 * v + digit_val c) l v
  = v * 10 ^ Z.of_nat (length l) + digits_value l.
Proof.
  unfold digits_value. revert v.
  induction l as [| c l IH]; intros v.
  - simpl. lia.
  - cbn [fold_left length]. rewrite IH, (IH (10 * 0 + digit_val c)).
    rewrite Nat2Z.inj_succ, Z.pow_succ_r by lia. lia.
Qed.

Lemma digits_value_app (a b : chars) :
  digits_value (a ++ b)
  = digits_value a * 10 ^ Z.of_nat (length b) + digits_value b.
Proof.
  unfold digits_value at 1. rewrite fold_left_app.
  now rewrite digits_value_from.
Qed.

Lemma digits_value_snoc (a : chars) (c : ascii) :
  digits_value (a ++ [c]) = 10 * digits_value a + digit_val c.
Proof. rewrite digits_value_app. cbn. lia. Qed.

Lemma dec_fuel_digits fuel n :
  forallb is_digit (dec_fuel fuel n) = true.
Proof.
  revert n. induction fuel as [| f IH]; intros n; cbn [dec_fuel].
  - cbn. rewrite (proj1 (digit_char_spec (n mod 10) ltac:(pose proof (Z.mod_pos_bound n 10); lia))).
    reflexivity.
  - destruct (n <? 10).
    + cbn. rewrite (proj1 (digit_char_spec (n mod 10) ltac:(pose proof (Z.mod_pos_bound n 10); lia))).
      reflexivity.
    + rewrite forallb_app, IH. cbn.
      rewrite (proj1 (digit_char_spec (n mod 10) ltac:(pose proof (Z.mod_pos_bound n 10); lia))).
      reflexivity.
Qed.

Lemma dec_fuel_value fuel n :
  0 <= n < 2 ^ (Z.of_nat fuel + 1) ->
  digits_value (dec_fuel fuel n) = n.
Proof.
  revert n. induction fuel as [| f IH]; intros n Hn; cbn [dec_fuel].
  - change (2 ^ (Z.of_nat 0 + 1)) with 2 in Hn.
    unfold digits_value. cbn.
    rewrite (proj2 (digit_char_spec (n mod 10) ltac:(pose proof (Z.mod_pos_bound n 10); lia))).
    rewrite Z.mod_small; lia.
  - destruct (Z.ltb_spec n 10) as [Hlt | Hge].
    + unfold digits_value. cbn.
      rewrite (proj2 (digit_char_spec (n mod 10) ltac:(pose proof (Z.mod_pos_bound n 10); lia))).
      rewrite Z.mod_small; lia.
    + rewrite digits_value_snoc, IH.
      * rewrite (proj2 (digit_char_spec (n mod 10) ltac:(pose proof (Z.mod_pos_bound n 10); lia))).
        pose proof (Z.div_mod n 10). lia.
      * split; [apply Z.div_pos; lia |].
        apply Z.div_lt_upper_bound; [lia |].
        rewrite Nat2Z.inj_succ in Hn.
        replace (Z.succ (Z.of_nat f) + 1) with (Z.succ (Z.of_nat f + 1)) in Hn by lia.
        rewrite Z.pow_succ_r in Hn by lia. lia.
Qed.

Lemma dec_fuel_length_le fuel k n :
  0 <= n < 10 ^ Z.of_nat (S k) ->
  (length (dec_fuel fuel n) <= S k)%nat.
Proof.
  revert k n. induction fuel as [| f IH]; intros k n Hn; cbn [dec_fuel].
  - cbn. lia.
  - destruct (Z.ltb_spec n 10) as [Hlt | Hge]; [cbn; lia |].
    rewrite length_app. cbn [length].
    destruct k as [| k].
    + change (10 ^ Z.of_nat 1) with 10 in Hn. lia.
    + specialize (IH k (n / 10)).
      rewrite (Nat2Z.inj_succ (S k)), Z.pow_succ_r in Hn by lia.
      assert (0 <= n / 10 < 10 ^ Z.of_nat (S k)).
      { split; [apply Z.div_pos; lia |].
        apply Z.div_lt_upper_bound; lia. }
      specialize (IH H). lia.
Qed.

Lemma dec_fuel_length_ge fuel k n :
  n < 2 ^ (Z.of_nat fuel + 1) ->
  10 ^ Z.of_nat k <= n ->
  (S k <= length (dec_fuel fuel n))%nat.
Proof.
  revert k n. induction fuel as [| f IH]; intros k n Hn Hk; cbn [dec_fuel].
  - change (2 ^ (Z.of_nat 0 + 1)) with 2 in Hn.
    destruct k as [| k]; [cbn; lia |].
    rewrite Nat2Z.inj_succ, Z.pow_succ_r in Hk by lia.
    assert (0 < 10 ^ Z.of_nat k) by (apply Z.pow_pos_nonneg; lia). lia.
  - destruct (Z.ltb_spec n 10) as [Hlt | Hge].
    + destruct k as [| k]; [cbn; lia |].
      rewrite Nat2Z.inj_succ, Z.pow_succ_r in Hk by lia.
      assert (0 < 10 ^ Z.of_nat k) by (apply Z.pow_pos_nonneg; lia). lia.
    + rewrite length_app. cbn [length].
      destruct k as [| k]; [lia |].
      assert (S k <= length (dec_fuel f (n / 10)))%nat; [| lia].
      apply IH.
      * apply Z.div_lt_upper_bound; [lia |].
        rewrite Nat2Z.inj_succ in Hn.
        replace (Z.succ (Z.of_nat f) + 1) with (Z.succ (Z.of_nat f + 1)) in Hn by lia.
        rewrite Z.pow_succ_r in Hn by lia. lia.
      * apply Z.div_le_lower_bound; [lia |].
        rewrite Nat2Z.inj_succ, Z.pow_succ_r in Hk by lia. lia.
Qed.

Lemma dec_enough_fuel n :
  0 <= n -> n < 2 ^ (Z.of_nat (Z.to_nat (Z.log2 n)) + 1).
Proof.
  intros Hn. rewrite Z2Nat.id by apply Z.log2_nonneg.
  destruct (Z.eq_dec n 0) as [-> | Hne]; [reflexivity |].
  pose proof (Z.log2_spec n ltac:(lia)) as H. unfold Z.succ in H. lia.
Qed.

Lemma dec_value n : 0 <= n -> digits_value (dec n) = n.
Proof.
  intros Hn. apply dec_fuel_value. split; [lia | now apply dec_enough_fuel].
Qed.

Lemma dec_digits n : forallb is_digit (dec n) = true.
Proof. apply dec_fuel_digits. Qed.

Lemma dec_length k n :
  10 ^ Z.of_nat k <= n < 10 ^ Z.of_nat (S k) -> length (dec n) = S k.
Proof.
  intros [Hlo Hhi].
  assert (0 <= n).
  { assert (0 < 10 ^ Z.of_nat k) by (apply Z.pow_pos_nonneg; lia). lia. }
  apply Nat.le_antisymm.
  - apply dec_fuel_length_le. lia.
  - apply dec_fuel_length_ge; [now apply dec_enough_fuel | exact Hlo].
Qed.

Lemma dec_length_le k n :
  0 <= n < 10 ^ Z.of_nat (S k) -> (length (dec n) <= S k)%nat.
Proof. apply dec_fuel_length_le. Qed.

Lemma zfill_length width (l : chars) :
  (length l <= width)%nat -> length (zfill width l) = width.
Proof.
  intros H. unfold zfill. rewrite length_app, repeat_length. lia.
Qed.

Lemma zeros_value k : digits_value (repeat "0"%char k) = 0.
Proof.
  induction k as [| k IH]; [reflexivity |].
  change (repeat "0"%char (S k)) with (["0"%char] ++ repeat "0"%char k)%list.
  rewrite digits_value_app, IH.
  change (digits_value ["0"%char]) with 0. lia.
Qed.

Lemma zfill_value width (l : chars) :
  digits_value (zfill width l) = digits_value l.
Proof.
  unfold zfill. rewrite digits_value_app, zeros_value. lia.
Qed.

Lemma zeros_digits k : forallb is_digit (repeat "0"%char k) = true.
Proof. induction k as [| k IH]; [reflexivity | exact IH]. Qed.

Lemma zfill_digits width (l : chars) :
  forallb is_digit l = true -> forallb is_digit (zfill width l) = true.
Proof.
  intros H. unfold zfill. now rewrite forallb_app, zeros_digits, H.
Qed.

Lemma string_of_list_ascii_app (a b : chars) :
  string_of_list_ascii (a ++ b)
  = string_of_list_ascii a +:+ string_of_list_ascii b.
Proof.
  induction a as [| c a IH]; [reflexivity |].
  cbn. now rewrite IH.
Qed.

(** The date stamp: eight digits that read as the date. *)
Lemma date_stamp (t : datetime) :
  four_digit_year t ->
  let d8 := (dec (year (dt_date t))
             ++ zfill 2 (dec (month (dt_date t)))
             ++ zfill 2 (dec (day (dt_date t))))%list in
  length d8 = 8%nat
  /\ forallb is_digit d8 = true
  /\ digits_value d8 = yyyymmdd t.
Proof.
  intros (Hy & Hm & Hd) d8. subst d8.
  assert (Ly : length (dec (year (dt_date t))) = 4%nat).
  { apply (dec_length 3). change (10 ^ Z.of_nat 3) with 1000.
    change (10 ^ Z.of_nat 4) with 10000. lia. }
  assert (Lm : length (zfill 2 (dec (month (dt_date t)))) = 2%nat).
  { apply zfill_length, (dec_length_le 1).
    change (10 ^ Z.of_nat 2) with 100. lia. }
  assert (Ld : length (zfill 2 (dec (day (dt_date t)))) = 2%nat).
  { apply zfill_length, (dec_length_le 1).
    change (10 ^ Z.of_nat 2) with 100. lia. }
  repeat split.
  - rewrite !length_app, Ly, Lm, Ld. reflexivity.
  - rewrite !forallb_app, !zfill_digits, dec_digits by apply dec_digits.
    reflexivity.
  - rewrite !digits_value_app, !length_app, Lm, Ld, !zfill_value.
    rewrite !dec_value by lia. unfold yyyymmdd.
    change (10 ^ Z.of_nat (2 + 2)) with 10000.
    change (10 ^ Z.of_nat 2) with 100. lia.
Qed.

(** The random suffix: six digits that read as the drawn value. *)
Lemma suffix_stamp (r : Z) :
  0 <= r < 10 ^ 6 ->
  let d6 := zfill 6 (dec r) in
  length d6 = 6%nat
  /\ forallb is_digit d6 = true
  /\ digits_value d6 = r.
Proof.
  intros Hr d6. subst d6. repeat split.
  - apply zfill_length, (dec_length_le 5).
    change (10 ^ Z.of_nat 6) with (10 ^ 6). lia.
  - apply zfill_digits, dec_digits.
  - rewrite zfill_value. apply dec_value. lia.
Qed.

(* ===================================================================== *)
(** ** Patients and their public identifier *)
(* ===================================================================== *)

Lemma patient_validate_matergui_id (b : Patient.body) (p : Patient.t) :
  Patient.validate b = inr p ->
  optional "matergui_id" None unconstrained (Patient.in_matergui_id b)
  = inr (Patient.matergui_id p).
Proof.
  unfold Patient.validate. intros H. peel H. subst. assumption.
Qed.

Lemma generate_matergui_id_run w :
  generate_matergui_id w = (inr (matergui_id_at w), w).
Proof. reflexivity. Qed.

(** A payload whose identifier is [None] or empty gets a generated one,
    which is both stored and returned. *)
Lemma create_patient_generates (p : Patient.t) (w : World) (st : store) :
  Patient.matergui_id p = None \/ Patient.matergui_id p = Some "" ->
  db w = Some st ->
  faults w (InsertOne "patient") = false ->
  let oid := (next_oid w mod 2 ^ 96)%N in
  let doc := ("_id", PObjectId oid)
             :: dict_set "matergui_id" (PStr (matergui_id_at w))
                  (Patient.model_dump p) in
  create_patient p w
  = (inr [("id", PStr (oid_str oid));
          ("matergui_id", PStr (matergui_id_at w))],
     put_store (<["patient" := collection st "patient" ++ [doc]]> st)
       (next_oid w + 1)%N (log_call (InsertOne "patient") w)).
Proof.
  intros Hid Hdb Hf oid doc. subst oid doc.
  unfold create_patient, bind, ensure_db. rewrite Hdb.
  unfold Patient.model_dump at 1.
  assert (T : truthy (py_get "matergui_id" (Patient.model_dump p)) = false).
  { unfold Patient.model_dump, py_get. cbn [dict_get String.eqb Ascii.eqb Bool.eqb].
    destruct Hid as [-> | ->]; reflexivity. }
  unfold Patient.model_dump in T. rewrite T. cbn [negb].
  rewrite generate_matergui_id_run. unfold ret at 1.
  unfold create_document. cbn [db log_call]. rewrite Hdb. cbn [faults]. rewrite Hf.
  reflexivity.
Qed.

Lemma matergui_id_at_shape w :
  matergui_id_at w
  = string_of_list_ascii
      (list_ascii_of_string "MGU-"
       ++ (dec (year (dt_date (utcnow w)))
           ++ zfill 2 (dec (month (dt_date (utcnow w))))
           ++ zfill 2 (dec (day (dt_date (utcnow w)))))
       ++ ["-"%char]
       ++ zfill 6 (dec (randbelow w (10 ^ 6)))).
Proof.
  unfold matergui_id_at, strftime_Ymd, format_06d.
  now rewrite !string_of_list_ascii_app.
Qed.

(** C3. When the payload supplies no public identifier (the key is
    missing or null), the identifier that POST /patients returns is
    [MGU-], eight digits that read as the UTC date, a hyphen, and six
    digits that read as the value drawn from [0, 1000000). *)
Theorem patient_identifier_format
    (b : Patient.body) (p : Patient.t) (w : World) (st : store) :
  Patient.validate b = inr p ->
  Patient.in_matergui_id b = Absent \/ Patient.in_matergui_id b = Null ->
  db w = Some st ->
  faults w (InsertOne "patient") = false ->
  four_digit_year (utcnow w) ->
  0 <= randbelow w (10 ^ 6) < 10 ^ 6 ->
  exists (new_id : string) (d8 d6 : chars) (w' : World),
    app (PostPatients b) w
    = (mkResponse 200
         (Object
            [("id", PStr new_id);
             ("matergui_id",
              PStr (string_of_list_ascii
                      (list_ascii_of_string "MGU-" ++ d8 ++ ["-"%char] ++ d6)))]),
       w')
    /\ length d8 = 8%nat /\ forallb is_digit d8 = true
    /\ digits_value d8 = yyyymmdd (utcnow w)
    /\ length d6 = 6%nat /\ forallb is_digit d6 = true
    /\ digits_value d6 = randbelow w (10 ^ 6).
Proof.
  intros Hv Hin Hdb Hf Hclock Hrand.
  pose proof (patient_validate_matergui_id b p Hv) as Hid.
  assert (Hnone : Patient.matergui_id p = None).
  { destruct Hin as [E | E]; rewrite E in Hid; cbn in Hid; congruence. }
  destruct (date_stamp (utcnow w) Hclock) as (L8 & D8 & V8).
  destruct (suffix_stamp (randbelow w (10 ^ 6)) Hrand) as (L6 & D6 & V6).
  eexists _, _, _, _. split.
  - cbn [app]. unfold with_body. rewrite Hv.
    rewrite (create_patient_generates p w st (or_introl Hnone) Hdb Hf).
    cbn [respond]. rewrite matergui_id_at_shape. reflexivity.
  - auto 10.
Qed.

Lemma patient_identifier_format_witness :
  exists (new_id : string) (d8 d6 : chars) (w' : World),
    app (PostPatients (patient_named Absent)) sample_world
    = (mkResponse 200
         (Object
            [("id", PStr new_id);
             ("matergui_id",
              PStr (string_of_list_ascii
                      (list_ascii_of_string "MGU-" ++ d8 ++ ["-"%char] ++ d6)))]),
       w')
    /\ length d8 = 8%nat /\ forallb is_digit d8 = true
    /\ digits_value d8 = yyyymmdd (utcnow sample_world)
    /\ length d6 = 6%nat /\ forallb is_digit d6 = true
    /\ digits_value d6 = randbelow sample_world (10 ^ 6).
Proof.
  apply (patient_identifier_format
           (patient_named Absent)
           (Patient.mk None "Aissatou" "Camara" None None None None None
                       None None)
           sample_world sample_store).
  - reflexivity.
  - left. reflexivity.
  - reflexivity.
  - reflexivity.
  - vm_compute. repeat split; discriminate.
  - vm_compute. split; [discriminate | reflexivity].
Defined.

(** C10. A payload whose [matergui_id] is the empty string is treated
    as one without identifier: a fresh identifier is generated, it is
    the one stored with the new document, and it is returned in place of
    the empty string. *)
Theorem empty_matergui_id_regenerated
    (b : Patient.body) (p : Patient.t) (w : World) (st : store) :
  Patient.validate b = inr p ->
  Patient.in_matergui_id b = Given "" ->
  db w = Some st ->
  faults w (InsertOne "patient") = false ->
  exists (mid new_id : string) (doc : document) (w' : World),
    generate_matergui_id w = (inr mid, w)
    /\ mid <> ""
    /\ app (PostPatients b) w
       = (mkResponse 200
            (Object [("id", PStr new_id); ("matergui_id", PStr mid)]),
          w')
    /\ db w' = Some (<["patient" := collection st "patient" ++ [doc]]> st)
    /\ dict_get "matergui_id" doc = Some (PStr mid).
Proof.
  intros Hv Hin Hdb Hf.
  pose proof (patient_validate_matergui_id b p Hv) as Hid.
  rewrite Hin in Hid. cbn in Hid.
  assert (Hempty : Patient.matergui_id p = Some "") by congruence.
  eexists (matergui_id_at w), _, _, _. repeat split.
  - discriminate.
  - cbn [app]. unfold with_body. rewrite Hv.
    rewrite (create_patient_generates p w st (or_intror Hempty) Hdb Hf).
    cbn [respond]. reflexivity.
  - reflexivity.
  - reflexivity.
Qed.

Lemma empty_matergui_id_regenerated_witness :
  exists (mid new_id : string) (doc : document) (w' : World),
    generate_matergui_id sample_world = (inr mid, sample_world)
    /\ mid <> ""
    /\ app (PostPatients (patient_named (Given ""))) sample_world
       = (mkResponse 200
            (Object [("id", PStr new_id); ("matergui_id", PStr mid)]),
          w')
    /\ db w'
       = Some (<["patient" := collection sample_store "patient" ++ [doc]]>
                 sample_store)
    /\ dict_get "matergui_id" doc = Some (PStr mid).
Proof.
  apply (empty_matergui_id_regenerated
           (patient_named (Given ""))
           (Patient.mk (Some "") "Aissatou" "Camara" None None None None
                       None None None)
           sample_world sample_store); reflexivity.
Defined.

(* ===================================================================== *)
(** ** Parity and gravida of an admitted pregnancy *)
(* ===================================================================== *)

Lemma pregnancy_validate_counts (b : Pregnancy.body) (p : Pregnancy.t) :
  Pregnancy.validate b = inr p ->
  optional "parity" (Some 0) (int_ge 0) (Pregnancy.in_parity b)
  = inr (Pregnancy.parity p)
  /\ optional "gravida" (Some 1) (int_ge 1) (Pregnancy.in_gravida b)
     = inr (Pregnancy.gravida p).
Proof.
  unfold Pregnancy.validate. intros H. peel H. subst. split; assumption.
Qed.

(** What a constrained optional counter can validate to. *)
Lemma optional_count name (lo : Z) (r : raw Z) (o : option Z) :
  optional name (Some lo) (int_ge lo) r = inr o ->
  (o = None /\ r = Null \/ exists z, o = Some z /\ lo <= z)
  /\ (r = Absent -> o = Some lo).
Proof.
  unfold optional, int_ge. destruct r as [| | z |]; intros H.
  - injection H as <-. split; [right; exists lo; split; [reflexivity | lia] | auto].
  - injection H as <-. split; [left; auto | discriminate].
  - destruct (Z.ltb_spec z lo); cbn in H; [discriminate |].
    injection H as <-. split; [right; exists z; auto | discriminate].
  - discriminate.
Qed.

(** The only way POST /pregnancies answers 200: the body validates and
    its model dump is appended, under a fresh [_id], to the pregnancies. *)
Lemma create_pregnancy_admits (b : Pregnancy.body) w resp w' :
  app (PostPregnancies b) w = (resp, w') ->
  status resp = 200 ->
  exists (p : Pregnancy.t) (st : store) (oid : N),
    Pregnancy.validate b = inr p
    /\ db w = Some st
    /\ db w'
       = Some (<["pregnancy" :=
                   collection st "pregnancy"
                   ++ [("_id", PObjectId oid) :: Pregnancy.model_dump p]]> st).
Proof.
  cbn [app]. unfold with_body.
  destruct (Pregnancy.validate b) as [fs | p] eqn:Hv.
  { cbn. intros [= <- <-]. discriminate. }
  unfold create_pregnancy, bind, ensure_db.
  destruct (db w) as [st |] eqn:Hdb; [| cbn; intros [= <- <-]; discriminate].
  destruct (ObjectId (Pregnancy.patient_id p)) as [pid |];
    [| cbn; intros [= <- <-]; discriminate].
  cbn [ret]. unfold find_one, driver_read. rewrite Hdb.
  destruct (faults w (FindOne "patient" pid));
    [cbn; intros [= <- <-]; discriminate |].
  destruct (List.find (has_id pid) (collection st "patient"));
    [| cbn; intros [= <- <-]; discriminate].
  unfold create_document. cbn [db faults next_oid log_call]. rewrite Hdb.
  destruct (faults w (InsertOne "pregnancy"));
    [cbn; intros [= <- <-]; discriminate |].
  cbn [respond]. intros [= <- <-] _.
  exists p, st, (next_oid w mod 2 ^ 96)%N. auto.
Qed.

(** C8, as the code has it. The document stored by an admitted
    pregnancy has a parity that is null or at least 0 and a gravida
    that is null or at least 1, null only when the body says [null];
    a body that omits them gets 0 and 1. *)
Theorem admitted_pregnancy_counts (b : Pregnancy.body) (w w' : World)
    (resp : response) :
  app (PostPregnancies b) w = (resp, w') ->
  status resp = 200 ->
  exists (st : store) (doc : document),
    db w = Some st
    /\ db w'
       = Some (<["pregnancy" := collection st "pregnancy" ++ [doc]]> st)
    /\ (py_get "parity" doc = PNone /\ Pregnancy.in_parity b = Null
        \/ int_at_least 0 (py_get "parity" doc))
    /\ (py_get "gravida" doc = PNone /\ Pregnancy.in_gravida b = Null
        \/ int_at_least 1 (py_get "gravida" doc))
    /\ (Pregnancy.in_parity b = Absent -> py_get "parity" doc = PInt 0)
    /\ (Pregnancy.in_gravida b = Absent -> py_get "gravida" doc = PInt 1).
Proof.
  intros Happ Hok.
  destruct (create_pregnancy_admits b w resp w' Happ Hok)
    as (p & st & oid & Hv & Hdb & Hdb').
  destruct (pregnancy_validate_counts b p Hv) as [Hp Hg].
  apply optional_count in Hp as [Hp Hp0], Hg as [Hg Hg0].
  exists st, (("_id", PObjectId oid) :: Pregnancy.model_dump p).
  split; [exact Hdb |]. split; [exact Hdb' |].
  change (py_get "parity" (("_id", PObjectId oid) :: Pregnancy.model_dump p))
    with (dump_opt PInt (Pregnancy.parity p)).
  change (py_get "gravida" (("_id", PObjectId oid) :: Pregnancy.model_dump p))
    with (dump_opt PInt (Pregnancy.gravida p)).
  repeat split.
  - destruct Hp as [[-> E] | (z & -> & Hz)]; [left; auto |].
    right. exists z. auto.
  - destruct Hg as [[-> E] | (z & -> & Hz)]; [left; auto |].
    right. exists z. auto.
  - intros E. now rewrite (Hp0 E).
  - intros E. now rewrite (Hg0 E).
Qed.

Lemma admitted_pregnancy_counts_witness :
  exists (st : store) (doc : document),
    db sample_world = Some st
    /\ db (snd (app (PostPregnancies (pregnancy_of (oid_str 7))) sample_world))
       = Some (<["pregnancy" := collection st "pregnancy" ++ [doc]]> st)
    /\ (py_get "parity" doc = PNone
        /\ Pregnancy.in_parity (pregnancy_of (oid_str 7)) = Null
        \/ int_at_least 0 (py_get "parity" doc))
    /\ (py_get "gravida" doc = PNone
        /\ Pregnancy.in_gravida (pregnancy_of (oid_str 7)) = Null
        \/ int_at_least 1 (py_get "gravida" doc))
    /\ (Pregnancy.in_parity (pregnancy_of (oid_str 7)) = Absent ->
        py_get "parity" doc = PInt 0)
    /\ (Pregnancy.in_gravida (pregnancy_of (oid_str 7)) = Absent ->
        py_get "gravida" doc = PInt 1).
Proof.
  apply (admitted_pregnancy_counts
           (pregnancy_of (oid_str 7)) sample_world
           (snd (app (PostPregnancies (pregnancy_of (oid_str 7))) sample_world))
           (fst (app (PostPregnancies (pregnancy_of (oid_str 7))) sample_world))).
  - apply surjective_pairing.
  - vm_compute. reflexivity.
Defined.

(** C8, as stated, fails: a body whose parity is [null] is admitted, and
    the stored parity is then [None], which is not an integer at least 0. *)
Lemma null_parity_admitted :
  status (fst (app (PostPregnancies pregnancy_null_parity) sample_world)) = 200
  /\ option_map
       (fun st => List.map (py_get "parity") (collection st "pregnancy"))
       (db (snd (app (PostPregnancies pregnancy_null_parity) sample_world)))
     = Some [PNone]
  /\ ~ int_at_least 0 PNone.
Proof.
  split; [vm_compute; reflexivity |].
  split; [vm_compute; reflexivity |].
  intros (z & E & _). discriminate.
Qed.

(* ===================================================================== *)
(** ** The dashboard report *)
(* ===================================================================== *)

Lemma dict_get_project field (d : document) :
  dict_get field (project field d) = dict_get field d.
Proof.
  unfold project. induction d as [| [k v] d IH]; [reflexivity |].
  cbn [List.filter fst dict_get].
  destruct (String.eqb_spec field k) as [<- | Hne].
  - rewrite String.eqb_refl, orb_true_r. cbn [dict_get].
    now rewrite String.eqb_refl.
  - destruct (String.eqb k "_id" || String.eqb k field) eqn:E.
    + cbn [dict_get]. apply String.eqb_neq in Hne. now rewrite Hne.
    + exact IH.
Qed.

Lemma py_get_project field (d : document) :
  py_get field (project field d) = py_get field d.
Proof. unfold py_get. now rewrite dict_get_project. Qed.

(** One turn of the loop on a document whose due date is a date, a
    datetime or falsy: no exception, and the count moves by one exactly
    when the date falls in the month. *)
Lemma due_step_run today p due w :
  edd_date_or_falsy p = true ->
  due_step today (project "expected_due_date" p) due w
  = (inr (due + (if due_in_month today p then 1 else 0)), w).
Proof.
  unfold edd_date_or_falsy, due_step, due_in_month.
  rewrite py_get_project.
  destruct (py_get "expected_due_date" p) as [| [] | z | f | s | d | t | o | l];
    cbn [truthy negb]; intros H;
    try (rewrite Z.add_0_r; reflexivity);
    try discriminate.
  - apply negb_true_iff in H. rewrite H. cbn. now rewrite Z.add_0_r.
  - apply negb_true_iff in H. rewrite H. cbn. now rewrite Z.add_0_r.
  - apply negb_true_iff in H. rewrite H. cbn. now rewrite Z.add_0_r.
  - cbn. unfold bind, ret.
    destruct (year d =? year today), (month d =? month today); cbn;
      now rewrite ?Z.add_0_r.
  - cbn. unfold bind, ret.
    destruct (year (dt_date t) =? year today),
             (month (dt_date t) =? month today); cbn;
      now rewrite ?Z.add_0_r.
  - destruct l; cbn in *; [now rewrite Z.add_0_r | discriminate].
Qed.

Lemma due_loop_run today (ps : list document) due w :
  forallb edd_date_or_falsy ps = true ->
  due_loop today (List.map (project "expected_due_date") ps) due w
  = (inr (due + count_due today ps), w).
Proof.
  unfold count_due. revert due.
  induction ps as [| p ps IH]; intros due H.
  - cbn. now rewrite Z.add_0_r.
  - cbn [forallb] in H. apply andb_true_iff in H as [Hp Hps].
    cbn [List.map due_loop]. unfold bind.
    rewrite (due_step_run today p due w Hp), (IH _ Hps).
    cbn [List.filter]. destruct (due_in_month today p); cbn [length].
    + rewrite Nat2Z.inj_succ. f_equal. f_equal. lia.
    + f_equal. f_equal. lia.
Qed.

Lemma bind_run {A B} (c : M A) (k : A -> M B) w a w' :
  c w = (inr a, w') -> (x <- c ;; k x) w = k a w'.
Proof. intros H. unfold bind. now rewrite H. Qed.

Lemma ensure_db_run w st : db w = Some st -> ensure_db w = (inr tt, w).
Proof. intros H. unfold ensure_db. now rewrite H. Qed.

Lemma driver_read_run {A} c (f : store -> A) w st :
  db w = Some st -> faults w c = false ->
  driver_read c f w = (inr (f st), log_call c w).
Proof. intros Hdb Hf. unfold driver_read. now rewrite Hdb, Hf. Qed.

(** The guarded count never raises: a fault reads as zero. *)
Lemma count_run col w st :
  db w = Some st ->
  count col w = (inr (recovered_count w st col), log_call (CountDocuments col) w).
Proof.
  intros Hdb. unfold count, try_except, count_documents, driver_read,
    recovered_count.
  rewrite Hdb. now destruct (faults w (CountDocuments col)).
Qed.

(** The scan of the pregnancies and the loop over what it returns. *)
Lemma due_this_month_run w st :
  db w = Some st ->
  forallb edd_date_or_falsy (firstn 200 (collection st "pregnancy")) = true ->
  (match firstn 200
           (List.map (project "expected_due_date") (collection st "pregnancy"))
   with
   | [] => ret 0
   | _ :: _ =>
       today <- ask today ;;
       due_loop today
         (firstn 200
            (List.map (project "expected_due_date")
               (collection st "pregnancy"))) 0
   end) w
  = (inr (count_due (today w) (firstn 200 (collection st "pregnancy"))), w).
Proof.
  intros Hdb Hedd. rewrite firstn_map.
  destruct (firstn 200 (collection st "pregnancy")) as [| p ps] eqn:E;
    [reflexivity |].
  cbn [List.map]. unfold bind, ask.
  change (project "expected_due_date" p
          :: List.map (project "expected_due_date") ps)
    with (List.map (project "expected_due_date") (p :: ps)).
  now rewrite (due_loop_run (today w) (p :: ps) 0 w Hedd).
Qed.

(** The whole of [get_stats], when the three unguarded driver calls
    answer and no stored due date is of a foreign type. *)
Lemma get_stats_run w st :
  db w = Some st ->
  faults w (Find "pregnancy") = false ->
  faults w ListCollectionNames = false ->
  faults w (Aggregate "facility") = false ->
  forallb edd_date_or_falsy (firstn 200 (collection st "pregnancy")) = true ->
  exists (regions : list document) (w' : World),
    get_stats w
    = (inr (mkStats (recovered_count w st "patient")
                    (recovered_count w st "pregnancy")
                    (recovered_count w st "visit")
                    (recovered_count w st "appointment")
                    (recovered_count w st "alert")
                    (count_due (today w)
                       (firstn 200 (collection st "pregnancy")))
                    regions),
       w')
    /\ db w' = Some st.
Proof.
  intros Hdb Hfind Hnames Hagg Hedd.
  unfold get_stats.
  rewrite (bind_run _ _ _ _ _ (ensure_db_run w st Hdb)).
  unfold find_projected.
  rewrite (bind_run _ _ _ _ _ (driver_read_run _ _ w st Hdb Hfind)).
  set (w1 := log_call (Find "pregnancy") w).
  rewrite (bind_run _ _ _ _ _ (due_this_month_run w1 st Hdb Hedd)).
  unfold list_collection_names.
  rewrite (bind_run _ _ _ _ _
             (driver_read_run ListCollectionNames _ w1 st Hdb Hnames)).
  set (w2 := log_call ListCollectionNames w1).
  set (names := (map_to_list st).*1).
  assert (R : exists regions w3,
             (if existsb (String.eqb "facility") names
              then aggregate_group "facility" "region"
              else ret []) w2 = (inr regions, w3)
             /\ db w3 = Some st /\ faults w3 = faults w).
  { destruct (existsb (String.eqb "facility") names).
    - unfold aggregate_group.
      rewrite (driver_read_run (Aggregate "facility") _ w2 st Hdb Hagg).
      eexists _, _. split; [reflexivity |]. split; [exact Hdb | reflexivity].
    - eexists _, _. split; [reflexivity |]. split; [exact Hdb | reflexivity]. }
  destruct R as (regions & w3 & R & Hdb3 & Hf3).
  rewrite (bind_run _ _ _ _ _ R).
  rewrite (bind_run _ _ _ _ _ (count_run "patient" w3 st Hdb3)).
  set (w4 := log_call (CountDocuments "patient") w3).
  rewrite (bind_run _ _ _ _ _ (count_run "pregnancy" w4 st Hdb3)).
  set (w5 := log_call (CountDocuments "pregnancy") w4).
  rewrite (bind_run _ _ _ _ _ (count_run "visit" w5 st Hdb3)).
  set (w6 := log_call (CountDocuments "visit") w5).
  rewrite (bind_run _ _ _ _ _ (count_run "appointment" w6 st Hdb3)).
  set (w7 := log_call (CountDocuments "appointment") w6).
  rewrite (bind_run _ _ _ _ _ (count_run "alert" w7 st Hdb3)).
  exists regions, (log_call (CountDocuments "alert") w7).
  split; [| exact Hdb3].
  unfold ret, recovered_count. cbn [faults log_call w4 w5 w6 w7].
  rewrite Hf3. reflexivity.
Qed.

(** C9. Each of the five document counts of the report is computed on
    its own: a count that fails reads as zero, the other counts are
    those of their collections, and the report is returned with status
    200. (The scan of the pregnancies, the listing of the collections
    and the grouping of the facilities are not guarded; they are taken
    to answer.) *)
Theorem stats_counts_degrade (w : World) (st : store) :
  db w = Some st ->
  faults w (Find "pregnancy") = false ->
  faults w ListCollectionNames = false ->
  faults w (Aggregate "facility") = false ->
  forallb edd_date_or_falsy (firstn 200 (collection st "pregnancy")) = true ->
  exists (s : stats) (w' : World),
    app GetStats w = (mkResponse 200 (Stats s), w')
    /\ (forall col, faults w (CountDocuments col) = true ->
                    recovered_count w st col = 0)
    /\ (forall col, faults w (CountDocuments col) = false ->
                    recovered_count w st col
                    = Z.of_nat (length (collection st col)))
    /\ patients s = recovered_count w st "patient"
    /\ pregnancies s = recovered_count w st "pregnancy"
    /\ visits s = recovered_count w st "visit"
    /\ appointments s = recovered_count w st "appointment"
    /\ alerts s = recovered_count w st "alert".
Proof.
  intros Hdb Hfind Hnames Hagg Hedd.
  destruct (get_stats_run w st Hdb Hfind Hnames Hagg Hedd)
    as (regions & w' & E & _).
  eexists _, w'. cbn [app]. rewrite E. cbn [respond].
  split; [reflexivity |].
  split; [intros col H; unfold recovered_count; now rewrite H |].
  split; [intros col H; unfold recovered_count; now rewrite H |].
  cbn. auto.
Qed.

Lemma stats_counts_degrade_witness :
  exists (s : stats) (w' : World),
    app GetStats degraded_world = (mkResponse 200 (Stats s), w')
    /\ (forall col, faults degraded_world (CountDocuments col) = true ->
                    recovered_count degraded_world sample_store col = 0)
    /\ (forall col, faults degraded_world (CountDocuments col) = false ->
                    recovered_count degraded_world sample_store col
                    = Z.of_nat (length (collection sample_store col)))
    /\ patients s = recovered_count degraded_world sample_store "patient"
    /\ pregnancies s = recovered_count degraded_world sample_store "pregnancy"
    /\ visits s = recovered_count degraded_world sample_store "visit"
    /\ appointments s
       = recovered_count degraded_world sample_store "appointment"
    /\ alerts s = recovered_count degraded_world sample_store "alert".
Proof.
  apply (stats_counts_degrade degraded_world sample_store); reflexivity.
Defined.

(** C6, as the code has it. The reported [due_this_month] is the number
    of pregnancies, among the first 200 the store returns, whose
    expected due date has the year and month of the server's current
    date; it is the number over the whole collection when the collection
    holds at most 200 documents. *)
Theorem due_this_month_first_200 (w : World) (st : store) :
  db w = Some st ->
  faults w (Find "pregnancy") = false ->
  faults w ListCollectionNames = false ->
  faults w (Aggregate "facility") = false ->
  forallb edd_date_or_falsy (firstn 200 (collection st "pregnancy")) = true ->
  exists (s : stats) (w' : World),
    app GetStats w = (mkResponse 200 (Stats s), w')
    /\ due_this_month s
       = count_due (today w) (firstn 200 (collection st "pregnancy"))
    /\ ((length (collection st "pregnancy") <= 200)%nat ->
        due_this_month s = count_due (today w) (collection st "pregnancy")).
Proof.
  intros Hdb Hfind Hnames Hagg Hedd.
  destruct (get_stats_run w st Hdb Hfind Hnames Hagg Hedd)
    as (regions & w' & E & _).
  eexists _, w'. cbn [app]. rewrite E. cbn [respond].
  split; [reflexivity |]. cbn [due_this_month].
  split; [reflexivity |].
  intros Hlen. now rewrite firstn_all2.
Qed.

Lemma due_this_month_first_200_witness :
  exists (s : stats) (w' : World),
    app GetStats crowded_world = (mkResponse 200 (Stats s), w')
    /\ due_this_month s
       = count_due (today crowded_world)
           (firstn 200
              (collection {[ "pregnancy" := many_pregnancies ]} "pregnancy"))
    /\ ((length (collection {[ "pregnancy" := many_pregnancies ]} "pregnancy")
         <= 200)%nat ->
        due_this_month s
        = count_due (today crowded_world)
            (collection {[ "pregnancy" := many_pregnancies ]} "pregnancy")).
Proof.
  apply (due_this_month_first_200 crowded_world
           {[ "pregnancy" := many_pregnancies ]});
    vm_compute; reflexivity.
Defined.

(** C6, as stated, fails: with 201 stored pregnancies all due in the
    current month, the report says 200. *)
Lemma due_this_month_misses_beyond_200 :
  db crowded_world = Some {[ "pregnancy" := many_pregnancies ]}
  /\ count_due (today crowded_world) many_pregnancies = 201
  /\ option_map due_this_month
       (reported_stats (fst (app GetStats crowded_world)))
     = Some 200.
Proof.
  split; [reflexivity |]. split; vm_compute; reflexivity.
Qed.

(* ===================================================================== *)
(** ** Referential integrity of POST /visits, and driver faults *)
(* ===================================================================== *)


(** X2. A visit whose [pregnancy_id] is well formed but resolves to no
    stored pregnancy is answered 404; the lookup is the only driver call
    and nothing is written. *)
Theorem create_visit_unknown_pregnancy
    (b : Visit.body) (v : Visit.t) (w : World) (st : store) (oid : N) :
  Visit.validate (today w) b = inr v ->
  db w = Some st ->
  ObjectId (Visit.pregnancy_id v) = Some oid ->
  faults w (FindOne "pregnancy" oid) = false ->
  ~ resolves st "pregnancy" oid ->
  app (PostVisits b) w
  = (mkResponse 404 (Detail "Grossesse introuvable"),
     log_call (FindOne "pregnancy" oid) w).
Proof.
  intros Hv Hdb Hoid Hf Hres. cbn [app]. unfold with_body. rewrite Hv.
  unfold create_visit, bind, ensure_db, try_except. rewrite Hdb, Hoid.
  unfold find_one, driver_read. rewrite Hdb, Hf.
  now rewrite (find_unresolved _ _ _ Hres).
Qed.

(** X3. The lookup of POST /visits sits inside the [try]: when the
    driver faults on it, the answer is the same 400 as for a malformed
    identifier, and nothing is written. *)
Theorem create_visit_lookup_fault
    (b : Visit.body) (v : Visit.t) (w : World) (st : store) (oid : N) :
  Visit.validate (today w) b = inr v ->
  db w = Some st ->
  ObjectId (Visit.pregnancy_id v) = Some oid ->
  faults w (FindOne "pregnancy" oid) = true ->
  app (PostVisits b) w
  = (mkResponse 400 (Detail "pregnancy_id invalide"),
     log_call (FindOne "pregnancy" oid) w).
Proof.
  intros Hv Hdb Hoid Hf. cbn [app]. unfold with_body. rewrite Hv.
  unfold create_visit, bind, ensure_db, try_except. rewrite Hdb, Hoid.
  unfold find_one, driver_read. now rewrite Hdb, Hf.
Qed.

(** X4. The lookup of POST /pregnancies sits outside the [try]: when
    the driver faults on it, the answer is a 500, and nothing is
    written. *)
Theorem create_pregnancy_lookup_fault
    (b : Pregnancy.body) (p : Pregnancy.t) (w : World) (st : store)
    (pid : N) :
  Pregnancy.validate b = inr p ->
  db w = Some st ->
  ObjectId (Pregnancy.patient_id p) = Some pid ->
  faults w (FindOne "patient" pid) = true ->
  app (PostPregnancies b) w
  = (mkResponse 500 (Detail "Internal Server Error"),
     log_call (FindOne "patient" pid) w).
Proof.
  intros Hv Hdb Hoid Hf. cbn [app]. unfold with_body. rewrite Hv.
  unfold create_pregnancy, bind, ensure_db. rewrite Hdb, Hoid. cbn [ret].
  unfold find_one, driver_read. now rewrite Hdb, Hf.
Qed.


(* ===================================================================== *)
(** ** Outcomes of the five admissions *)
(* ===================================================================== *)

Lemma find_resolves st col oid d :
  List.find (has_id oid) (collection st col) = Some d -> resolves st col oid.
Proof.
  intros H. apply find_some in H as [Hin Hid].
  exists d. split; [exact Hin | now apply has_id_true].
Qed.

(** What [create_document] does in each of its three cases. *)
Lemma create_document_outcome col data w :
  match db w with
  | None => create_document col data w = (inl (PyError "Exception"), w)
  | Some st =>
      if faults w (InsertOne col)
      then create_document col data w
           = (inl (PyError "PyMongoError"), log_call (InsertOne col) w)
      else create_document col data w
           = (inr (oid_str (fresh_oid w)),
              put_store
                (<[col := collection st col
                          ++ [("_id", PObjectId (fresh_oid w)) :: data]]> st)
                (next_oid w + 1)%N (log_call (InsertOne col) w))
  end.
Proof.
  unfold create_document, fresh_oid.
  destruct (db w); [| reflexivity].
  now destruct (faults w (InsertOne col)).
Qed.

(** A handler that ends with the insert of [data] into [col], run in a
    world [w1] that has the store and counter of [w]. *)
Lemma insert_tail col data (w w1 : World) (k : string -> document) :
  db w1 = db w -> next_oid w1 = next_oid w ->
  (forall s, dict_get "id" (k s) = Some (PStr s)) ->
  let r := respond Object
             ((new_id <- create_document col data ;; ret (k new_id)) w1) in
  admitted col data w r \/ refused w r.
Proof.
  intros Hdb Hn Hk r. subst r. unfold bind.
  pose proof (create_document_outcome col data w1) as H.
  destruct (db w1) as [st |] eqn:E.
  - destruct (faults w1 (InsertOne col)); rewrite H.
    + right. repeat split; cbn; [discriminate | congruence | congruence].
    + left. exists st. unfold fresh_oid in *. cbn.
      rewrite Hk, <- Hn. repeat split; congruence.
  - rewrite H. right. repeat split; cbn; [discriminate | congruence | congruence].
Qed.

Lemma refused_error (e : exn) (w w1 : World) :
  db w1 = db w -> next_oid w1 = next_oid w ->
  (forall d, e <> HTTPException 200 d) ->
  refused w (respond Object (inl e, w1)).
Proof.
  intros Hdb Hn He. destruct e as [c d | name]; cbn.
  - repeat split; cbn; [| exact Hdb | exact Hn].
    intros ->. now apply (He d).
  - repeat split; cbn; [discriminate | exact Hdb | exact Hn].
Qed.

Lemma bind_fail {A B} (c : M A) (k : A -> M B) w e w' :
  c w = (inl e, w') -> (x <- c ;; k x) w = (inl e, w').
Proof. intros H. unfold bind. now rewrite H. Qed.

Lemma driver_read_fault {A} c (f : store -> A) w st :
  db w = Some st -> faults w c = true ->
  driver_read c f w = (inl (PyError "PyMongoError"), log_call c w).
Proof. intros Hdb Hf. unfold driver_read. now rewrite Hdb, Hf. Qed.

Ltac refuse :=
  right; apply refused_error; [reflexivity | reflexivity | discriminate].

Lemma create_alert_outcome (a : Alert.t) w :
  let r := respond Object (create_alert a w) in
  admitted "alert" (Alert.model_dump a) w r \/ refused w r.
Proof.
  intros r. subst r. unfold create_alert.
  destruct (db w) as [st |] eqn:Hdb.
  - rewrite (bind_run _ _ _ _ _ (ensure_db_run w st Hdb)).
    apply insert_tail; reflexivity.
  - rewrite ensure_db_first by exact Hdb. refuse.
Qed.

Lemma create_appointment_outcome (a : Appointment.t) w :
  let r := respond Object (create_appointment a w) in
  admitted "appointment" (Appointment.model_dump a) w r \/ refused w r.
Proof.
  intros r. subst r. unfold create_appointment.
  destruct (db w) as [st |] eqn:Hdb.
  - rewrite (bind_run _ _ _ _ _ (ensure_db_run w st Hdb)).
    apply insert_tail; reflexivity.
  - rewrite ensure_db_first by exact Hdb. refuse.
Qed.

Lemma create_pregnancy_outcome (p : Pregnancy.t) w :
  let r := respond Object (create_pregnancy p w) in
  (admitted "pregnancy" (Pregnancy.model_dump p) w r
   /\ exists st pid, db w = Some st
        /\ ObjectId (Pregnancy.patient_id p) = Some pid
        /\ resolves st "patient" pid)
  \/ refused w r.
Proof.
  intros r. subst r. unfold create_pregnancy.
  destruct (db w) as [st |] eqn:Hdb;
    [| rewrite ensure_db_first by exact Hdb; refuse].
  rewrite (bind_run _ _ _ _ _ (ensure_db_run w st Hdb)).
  destruct (ObjectId (Pregnancy.patient_id p)) as [pid |] eqn:Hoid;
    [| rewrite (bind_fail (raise (HTTPException 400 "patient_id invalide"))
                  _ w _ w eq_refl); refuse].
  rewrite (bind_run (ret pid) _ w pid w eq_refl). unfold find_one.
  destruct (faults w (FindOne "patient" pid)) eqn:Hf.
  { rewrite (bind_fail _ _ _ _ _ (driver_read_fault _ _ w st Hdb Hf)). refuse. }
  rewrite (bind_run _ _ _ _ _ (driver_read_run _ _ w st Hdb Hf)).
  destruct (List.find (has_id pid) (collection st "patient")) as [d |] eqn:Hfind;
    [| refuse].
  destruct (insert_tail "pregnancy" (Pregnancy.model_dump p) w
              (log_call (FindOne "patient" pid) w)
              (fun s => [("id", PStr s)]) eq_refl eq_refl
              (fun s => eq_refl)) as [H | H].
  - left. split; [exact H |]. exists st, pid.
    repeat split; auto; now apply find_resolves with d.
  - right. exact H.
Qed.

Lemma create_visit_outcome (v : Visit.t) w :
  let r := respond Object (create_visit v w) in
  (admitted "visit" (Visit.model_dump v) w r
   /\ exists st oid, db w = Some st
        /\ ObjectId (Visit.pregnancy_id v) = Some oid
        /\ resolves st "pregnancy" oid)
  \/ refused w r.
Proof.
  intros r. subst r. unfold create_visit.
  destruct (db w) as [st |] eqn:Hdb;
    [| rewrite ensure_db_first by exact Hdb; refuse].
  rewrite (bind_run _ _ _ _ _ (ensure_db_run w st Hdb)).
  destruct (ObjectId (Visit.pregnancy_id v)) as [oid |] eqn:Hoid;
    [| rewrite (bind_fail _ _ w (HTTPException 400 "pregnancy_id invalide") w)
         by reflexivity; refuse].
  unfold try_except, find_one.
  destruct (faults w (FindOne "pregnancy" oid)) eqn:Hf.
  { rewrite (bind_fail _ _ w (HTTPException 400 "pregnancy_id invalide")
               (log_call (FindOne "pregnancy" oid) w))
      by now rewrite (driver_read_fault _ _ w st Hdb Hf).
    refuse. }
  rewrite (bind_run _ _ w
             (List.find (has_id oid) (collection st "pregnancy"))
             (log_call (FindOne "pregnancy" oid) w))
    by now rewrite (driver_read_run _ _ w st Hdb Hf).
  destruct (List.find (has_id oid) (collection st "pregnancy")) as [d |] eqn:Hfind;
    [| refuse].
  destruct (insert_tail "visit" (Visit.model_dump v) w
              (log_call (FindOne "pregnancy" oid) w)
              (fun s => [("id", PStr s)]) eq_refl eq_refl
              (fun s => eq_refl)) as [H | H].
  - left. split; [exact H |]. exists st, oid.
    repeat split; auto; now apply find_resolves with d.
  - right. exact H.
Qed.

(* ===================================================================== *)
(** ** POST /patients in general *)
(* ===================================================================== *)

(** With the store set, [create_patient] comes down to the insert of the
    model dump in which the assigned identifier stands, and returns that
    identifier beside the storage identifier. *)
Lemma create_patient_tail (p : Patient.t) (w : World) (st : store) :
  db w = Some st ->
  create_patient p w
  = (new_id <- create_document "patient"
                 (dict_set "matergui_id" (PStr (assigned_matergui_id p w))
                    (Patient.model_dump p)) ;;
     ret [("id", PStr new_id);
          ("matergui_id", PStr (assigned_matergui_id p w))]) w.
Proof.
  intros Hdb. unfold create_patient.
  rewrite (bind_run _ _ _ _ _ (ensure_db_run w st Hdb)).
  set (mid := assigned_matergui_id p w).
  assert (Hstep :
    (if negb (truthy (py_get "matergui_id" (Patient.model_dump p)))
     then (m <- generate_matergui_id ;;
           ret (dict_set "matergui_id" (PStr m) (Patient.model_dump p)))
     else ret (Patient.model_dump p)) w
    = (inr (dict_set "matergui_id" (PStr mid) (Patient.model_dump p)), w)).
  { subst mid. unfold assigned_matergui_id, Patient.model_dump.
    destruct (Patient.matergui_id p) as [[| c s] |]; reflexivity. }
  rewrite (bind_run _ _ _ _ _ Hstep).
  assert (Hget :
    dict_get "matergui_id"
      (dict_set "matergui_id" (PStr mid) (Patient.model_dump p))
    = Some (PStr mid)) by reflexivity.
  unfold bind, py_index. rewrite Hget.
  now destruct (create_document _ _ w) as [[e | i] w'].
Qed.

Lemma create_patient_outcome (p : Patient.t) w :
  let r := respond Object (create_patient p w) in
  (admitted "patient"
     (dict_set "matergui_id" (PStr (assigned_matergui_id p w))
        (Patient.model_dump p)) w r
   /\ dict_get "matergui_id" (returned_object (fst r))
      = Some (PStr (assigned_matergui_id p w)))
  \/ refused w r.
Proof.
  intros r. subst r.
  destruct (db w) as [st |] eqn:Hdb.
  - rewrite (create_patient_tail p w st Hdb).
    pose proof (create_document_outcome "patient"
      (dict_set "matergui_id" (PStr (assigned_matergui_id p w))
         (Patient.model_dump p)) w) as H.
    rewrite Hdb in H. unfold bind.
    destruct (faults w (InsertOne "patient")); rewrite H.
    + right. repeat split; cbn; try discriminate; auto.
    + left. split; [| reflexivity].
      exists st. cbn. repeat split; auto.
  - unfold create_patient. rewrite ensure_db_first by exact Hdb. refuse.
Qed.

(** X13. A supplied, non-empty public identifier is kept: it is
    returned, and the model dump is stored as it is, with no identifier
    generated. *)
Theorem supplied_matergui_id_kept
    (b : Patient.body) (p : Patient.t) (w : World) (st : store) (s : string) :
  Patient.validate b = inr p ->
  Patient.in_matergui_id b = Given s ->
  s <> "" ->
  db w = Some st ->
  faults w (InsertOne "patient") = false ->
  app (PostPatients b) w
  = (mkResponse 200
       (Object [("id", PStr (oid_str (fresh_oid w))); ("matergui_id", PStr s)]),
     put_store
       (<["patient" := collection st "patient"
                       ++ [("_id", PObjectId (fresh_oid w))
                           :: Patient.model_dump p]]> st)
       (next_oid w + 1)%N (log_call (InsertOne "patient") w))
  /\ dict_get "matergui_id" (Patient.model_dump p) = Some (PStr s).
Proof.
  intros Hv Hin Hs Hdb Hf.
  pose proof (patient_validate_matergui_id b p Hv) as Hid.
  rewrite Hin in Hid. cbn in Hid.
  assert (Hp : Patient.matergui_id p = Some s) by congruence.
  assert (Ha : assigned_matergui_id p w = s).
  { unfold assigned_matergui_id. rewrite Hp.
    apply String.eqb_neq in Hs. now rewrite Hs. }
  assert (Hd : dict_set "matergui_id" (PStr s) (Patient.model_dump p)
               = Patient.model_dump p).
  { unfold Patient.model_dump. cbn. now rewrite Hp. }
  split; [| unfold Patient.model_dump; cbn; now rewrite Hp].
  cbn [app]. unfold with_body. rewrite Hv.
  rewrite (create_patient_tail p w st Hdb), Ha, Hd.
  pose proof (create_document_outcome "patient" (Patient.model_dump p) w) as H.
  rewrite Hdb, Hf in H. unfold bind. rewrite H. reflexivity.
Qed.

(** X14. POST /patients never reads the store: the only driver call
    it can make is the insert, so a generated identifier is not checked
    against the stored ones. *)
Theorem create_patient_never_reads (b : Patient.body) (w : World) :
  calls (snd (app (PostPatients b) w)) = calls w
  \/ calls (snd (app (PostPatients b) w))
     = calls w ++ [InsertOne "patient"].
Proof.
  cbn [app]. unfold with_body.
  destruct (Patient.validate b) as [fs | p]; [left; reflexivity |].
  destruct (db w) as [st |] eqn:Hdb.
  - rewrite (create_patient_tail p w st Hdb).
    pose proof (create_document_outcome "patient"
      (dict_set "matergui_id" (PStr (assigned_matergui_id p w))
         (Patient.model_dump p)) w) as H.
    rewrite Hdb in H. unfold bind.
    destruct (faults w (InsertOne "patient")); rewrite H; right; reflexivity.
  - unfold create_patient. rewrite ensure_db_first by exact Hdb.
    left. reflexivity.
Qed.

(* ===================================================================== *)
(** ** Every request: one document or nothing *)
(* ===================================================================== *)

Lemma refused_invalid {P} (fields : list string) (h : P -> M document) w :
  refused w (with_body (inl fields) h w).
Proof. repeat split. discriminate. Qed.

(** A POST either admits one document into its own collection or
    leaves the store as it was. *)
Lemma post_outcome (req : request) (w : World) :
  mutating req = true ->
  (exists col data, collection_of req = Some col
                    /\ admitted col data w (app req w))
  \/ refused w (app req w).
Proof.
  intros Hm. destruct req as [b | b | b | b | b |]; try discriminate;
    cbn [app collection_of].
  - destruct (Patient.validate b) as [fs | p];
      [right; apply refused_invalid |].
    destruct (create_patient_outcome p w) as [[H _] | H]; [left | right; exact H].
    eexists _, _. split; [reflexivity | exact H].
  - destruct (Pregnancy.validate b) as [fs | p];
      [right; apply refused_invalid |].
    destruct (create_pregnancy_outcome p w) as [[H _] | H];
      [left | right; exact H].
    eexists _, _. split; [reflexivity | exact H].
  - destruct (Visit.validate (today w) b) as [fs | p];
      [right; apply refused_invalid |].
    destruct (create_visit_outcome p w) as [[H _] | H];
      [left | right; exact H].
    eexists _, _. split; [reflexivity | exact H].
  - destruct (Appointment.validate b) as [fs | p];
      [right; apply refused_invalid |].
    destruct (create_appointment_outcome p w) as [H | H];
      [left | right; exact H].
    eexists _, _. split; [reflexivity | exact H].
  - destruct (Alert.validate b) as [fs | p];
      [right; apply refused_invalid |].
    destruct (create_alert_outcome p w) as [H | H];
      [left | right; exact H].
    eexists _, _. split; [reflexivity | exact H].
Qed.

Lemma collection_of_declared req col :
  collection_of req = Some col -> In col get_schema_definitions.
Proof.
  destruct req; intros [= <-]; cbn; auto 10.
Qed.

Lemma collection_insert_other (st : store) col col' docs :
  col' <> col -> collection (<[col := docs]> st) col' = collection st col'.
Proof. intros H. unfold collection. now rewrite lookup_insert_ne. Qed.

(** X17. An admitted POST adds exactly one document, at the end of the
    collection of its record kind, which is one of those [GET /schema]
    declares; every other collection, and every document already
    stored, is as it was. *)
Theorem admitted_request_appends_one_document
    (req : request) (w w' : World) (resp : response) :
  mutating req = true ->
  app req w = (resp, w') ->
  status resp = 200 ->
  exists (col : string) (st st' : store) (doc : document),
    collection_of req = Some col
    /\ In col get_schema_definitions
    /\ db w = Some st /\ db w' = Some st'
    /\ collection st' col = collection st col ++ [doc]
    /\ forall col', col' <> col -> collection st' col' = collection st col'.
Proof.
  intros Hm Happ Hok.
  destruct (post_outcome req w Hm) as [(col & data & Hcol & H) | H];
    rewrite Happ in H.
  - destruct H as (st & Hdb & _ & _ & Hdb' & _). cbn [snd] in Hdb'.
    exists col, st. eexists _, _.
    split; [exact Hcol |]. split; [now apply collection_of_declared with req |].
    split; [exact Hdb |]. split; [exact Hdb' |].
    split; [apply collection_insert |].
    intros col' Hne. now apply collection_insert_other.
  - destruct H as [Hno _]. now destruct Hno.
Qed.

(* ===================================================================== *)
(** ** The report only reads *)
(* ===================================================================== *)

Lemma read_only_ret {A} (a : A) : read_only (ret a).
Proof. intros w. split; reflexivity. Qed.

Lemma read_only_raise {A} (e : exn) : read_only (raise e : M A).
Proof. intros w. split; reflexivity. Qed.

Lemma read_only_ask {A} (f : World -> A) : read_only (ask f).
Proof. intros w. split; reflexivity. Qed.

Lemma read_only_ensure_db : read_only ensure_db.
Proof.
  intros w. unfold ensure_db. destruct (db w) eqn:E; cbn; auto.
Qed.

Lemma read_only_driver_read {A} c (f : store -> A) :
  read_only (driver_read c f).
Proof.
  intros w. unfold driver_read. destruct (db w) eqn:E; cbn; [| auto].
  destruct (faults w c); cbn; auto.
Qed.

Lemma read_only_bind {A B} (c : M A) (k : A -> M B) :
  read_only c -> (forall a, read_only (k a)) -> read_only (x <- c ;; k x).
Proof.
  intros Hc Hk w. unfold bind. specialize (Hc w).
  destruct (c w) as [[e | a] w1]; cbn [snd] in *; [exact Hc |].
  destruct (Hk a w1) as [H1 H2]. destruct Hc as [H3 H4].
  split; congruence.
Qed.

Lemma read_only_try_except {A} (c : M A) (h : exn -> M A) :
  read_only c -> (forall e, read_only (h e)) -> read_only (try_except c h).
Proof.
  intros Hc Hh w. unfold try_except. specialize (Hc w).
  destruct (c w) as [[e | a] w1]; cbn [snd] in *; [| exact Hc].
  destruct (Hh e w1) as [H1 H2]. destruct Hc as [H3 H4].
  split; congruence.
Qed.

Lemma read_only_attr_year v : read_only (attr_year v).
Proof. destruct v; first [apply read_only_ret | apply read_only_raise]. Qed.

Lemma read_only_attr_month v : read_only (attr_month v).
Proof. destruct v; first [apply read_only_ret | apply read_only_raise]. Qed.

Lemma read_only_due_step today p due : read_only (due_step today p due).
Proof.
  unfold due_step.
  destruct (truthy _); [| apply read_only_ret].
  apply read_only_bind; [apply read_only_attr_year | intros y].
  destruct (y =? year today); [| apply read_only_ret].
  apply read_only_bind; [apply read_only_attr_month | intros m].
  destruct (m =? month today); apply read_only_ret.
Qed.

Lemma read_only_due_loop today ps due : read_only (due_loop today ps due).
Proof.
  revert due. induction ps as [| p ps IH]; intros due; cbn [due_loop].
  - apply read_only_ret.
  - apply read_only_bind; [apply read_only_due_step | intros d; apply IH].
Qed.

Lemma read_only_count col : read_only (count col).
Proof.
  apply read_only_try_except; [apply read_only_driver_read |].
  intros e. apply read_only_ret.
Qed.

Lemma read_only_get_stats : read_only get_stats.
Proof.
  unfold get_stats.
  apply read_only_bind; [apply read_only_ensure_db | intros _].
  apply read_only_bind; [apply read_only_driver_read | intros recent].
  apply read_only_bind.
  { destruct recent; [apply read_only_ret |].
    apply read_only_bind; [apply read_only_ask | intros t].
    apply read_only_due_loop. }
  intros due.
  apply read_only_bind; [apply read_only_driver_read | intros names].
  apply read_only_bind.
  { destruct (existsb _ names);
      [apply read_only_driver_read | apply read_only_ret]. }
  intros regions.
  repeat (apply read_only_bind; [apply read_only_count | intros ?]).
  apply read_only_ret.
Qed.

Lemma respond_world {A} (wrap : A -> content) (r : (exn + A) * World) :
  snd (respond wrap r) = snd r.
Proof. destruct r as [[[c d | name] | a] w]; reflexivity. Qed.

(** X19. GET /stats never writes: whatever it answers, the store and its
    identifier counter are as before. *)
Theorem get_stats_never_writes (w : World) :
  db (snd (app GetStats w)) = db w
  /\ next_oid (snd (app GetStats w)) = next_oid w.
Proof.
  cbn [app]. rewrite respond_world. apply read_only_get_stats.
Qed.

(** X18. A request that is not answered 200 has written nothing:
    the store and its identifier counter are as before. *)
Theorem refused_request_writes_nothing
    (req : request) (w w' : World) (resp : response) :
  app req w = (resp, w') ->
  status resp <> 200 ->
  db w' = db w /\ next_oid w' = next_oid w.
Proof.
  intros Happ Hno.
  destruct (mutating req) eqn:Hm.
  - destruct (post_outcome req w Hm) as [(col & data & _ & H) | H];
      rewrite Happ in H.
    + destruct H as (st & _ & Hok & _). now destruct Hno.
    + destruct H as (_ & H1 & H2). auto.
  - destruct req; try discriminate.
    pose proof (read_only_get_stats w) as H. cbn [app] in Happ.
    rewrite <- (respond_world Stats (get_stats w)), Happ in H. exact H.
Qed.

(* ===================================================================== *)
(** ** The report: what is not guarded *)
(* ===================================================================== *)

Lemma due_step_raises today p due w :
  edd_date_or_falsy p = false ->
  due_step today (project "expected_due_date" p) due w
  = (inl (PyError "AttributeError"), w).
Proof.
  unfold edd_date_or_falsy, due_step. rewrite py_get_project.
  destruct (py_get "expected_due_date" p) as [| [] | z | f | s | d | t | o | l];
    cbn [truthy negb]; intros H; try discriminate;
    try (apply negb_false_iff in H; rewrite H); reflexivity.
Qed.

Lemma due_loop_raises today (ps : list document) due w :
  forallb edd_date_or_falsy ps = false ->
  due_loop today (List.map (project "expected_due_date") ps) due w
  = (inl (PyError "AttributeError"), w).
Proof.
  revert due. induction ps as [| p ps IH]; intros due H; [discriminate |].
  cbn [forallb] in H. cbn [List.map due_loop]. unfold bind.
  destruct (edd_date_or_falsy p) eqn:Hp.
  - rewrite (due_step_run today p due w Hp). apply IH. exact H.
  - now rewrite (due_step_raises today p due w Hp).
Qed.

(** X21. A stored due date that is neither a date nor falsy (a string,
    say) among the scanned pregnancies aborts the whole report. *)
Theorem get_stats_foreign_due_date (w : World) (st : store) :
  db w = Some st ->
  faults w (Find "pregnancy") = false ->
  forallb edd_date_or_falsy (firstn 200 (collection st "pregnancy")) = false ->
  app GetStats w
  = (mkResponse 500 (Detail "Internal Server Error"),
     log_call (Find "pregnancy") w).
Proof.
  intros Hdb Hfind Hedd. cbn [app]. unfold get_stats.
  rewrite (bind_run _ _ _ _ _ (ensure_db_run w st Hdb)).
  unfold find_projected.
  rewrite (bind_run _ _ _ _ _ (driver_read_run _ _ w st Hdb Hfind)).
  rewrite firstn_map.
  destruct (firstn 200 (collection st "pregnancy")) as [| p ps] eqn:E;
    [discriminate |].
  match goal with
  | |- context [bind ?c _ (log_call (Find "pregnancy") w)] =>
      assert (F : c (log_call (Find "pregnancy") w)
                  = (inl (PyError "AttributeError"),
                     log_call (Find "pregnancy") w))
  end.
  { cbn [List.map]. unfold bind, ask.
    change (project "expected_due_date" p
            :: List.map (project "expected_due_date") ps)
      with (List.map (project "expected_due_date") (p :: ps)).
    now rewrite due_loop_raises. }
  now rewrite (bind_fail _ _ _ _ _ F).
Qed.

(** X22. The scan of the pregnancies is not guarded: when it faults, the
    report is a 500 and no count is attempted. *)
Theorem get_stats_scan_fault (w : World) (st : store) :
  db w = Some st ->
  faults w (Find "pregnancy") = true ->
  app GetStats w
  = (mkResponse 500 (Detail "Internal Server Error"),
     log_call (Find "pregnancy") w).
Proof.
  intros Hdb Hfind. cbn [app]. unfold get_stats.
  rewrite (bind_run _ _ _ _ _ (ensure_db_run w st Hdb)).
  unfold find_projected.
  now rewrite (bind_fail _ _ _ _ _ (driver_read_fault _ _ w st Hdb Hfind)).
Qed.

(** X23. Nor is the listing of the collections: when it faults, the
    report is a 500 although the scan succeeded. *)
Theorem get_stats_listing_fault (w : World) (st : store) :
  db w = Some st ->
  faults w (Find "pregnancy") = false ->
  forallb edd_date_or_falsy (firstn 200 (collection st "pregnancy")) = true ->
  faults w ListCollectionNames = true ->
  app GetStats w
  = (mkResponse 500 (Detail "Internal Server Error"),
     log_call ListCollectionNames (log_call (Find "pregnancy") w)).
Proof.
  intros Hdb Hfind Hedd Hnames. cbn [app]. unfold get_stats.
  rewrite (bind_run _ _ _ _ _ (ensure_db_run w st Hdb)).
  unfold find_projected.
  rewrite (bind_run _ _ _ _ _ (driver_read_run _ _ w st Hdb Hfind)).
  rewrite (bind_run _ _ _ _ _
             (due_this_month_run (log_call (Find "pregnancy") w) st Hdb Hedd)).
  unfold list_collection_names.
  now rewrite (bind_fail _ _ _ _ _
                 (driver_read_fault ListCollectionNames _
                    (log_call (Find "pregnancy") w) st Hdb Hnames)).
Qed.

Lemma has_collection (st : store) (col : string) :
  existsb (String.eqb col) (map_to_list st).*1 = true <-> is_Some (st !! col).
Proof.
  rewrite existsb_exists. split.
  - intros (k & Hin & Heq). apply String.eqb_eq in Heq. subst k.
    apply list_elem_of_In, list_elem_of_fmap in Hin as ([k v] & -> & Hkv).
    apply elem_of_map_to_list in Hkv. eauto.
  - intros [v Hv]. exists col. split; [| apply String.eqb_refl].
    apply list_elem_of_In, list_elem_of_fmap. exists (col, v).
    split; [reflexivity | now apply elem_of_map_to_list].
Qed.

(** X24. Without a facility collection the regions are empty and the
    grouping is never asked of the store: the report makes exactly
    seven driver calls. *)
Theorem get_stats_without_facilities (w : World) (st : store) :
  db w = Some st ->
  st !! "facility" = None ->
  faults w (Find "pregnancy") = false ->
  faults w ListCollectionNames = false ->
  forallb edd_date_or_falsy (firstn 200 (collection st "pregnancy")) = true ->
  exists (s : stats) (w' : World),
    app GetStats w = (mkResponse 200 (Stats s), w')
    /\ facilities_by_region s = []
    /\ calls w'
       = calls w
         ++ [Find "pregnancy"; ListCollectionNames;
             CountDocuments "patient"; CountDocuments "pregnancy";
             CountDocuments "visit"; CountDocuments "appointment";
             CountDocuments "alert"].
Proof.
  intros Hdb Hnone Hfind Hnames Hedd.
  assert (Hno : existsb (String.eqb "facility") (map_to_list st).*1 = false).
  { destruct (existsb _ _) eqn:E; [| reflexivity].
    apply has_collection in E as [v Hv]. congruence. }
  cbn [app]. unfold get_stats.
  rewrite (bind_run _ _ _ _ _ (ensure_db_run w st Hdb)).
  unfold find_projected.
  rewrite (bind_run _ _ _ _ _ (driver_read_run _ _ w st Hdb Hfind)).
  set (w1 := log_call (Find "pregnancy") w).
  rewrite (bind_run _ _ _ _ _ (due_this_month_run w1 st Hdb Hedd)).
  unfold list_collection_names.
  rewrite (bind_run _ _ _ _ _
             (driver_read_run ListCollectionNames _ w1 st Hdb Hnames)).
  set (w2 := log_call ListCollectionNames w1).
  rewrite Hno. rewrite (bind_run (ret []) _ w2 [] w2 eq_refl).
  rewrite (bind_run _ _ _ _ _ (count_run "patient" w2 st Hdb)).
  set (w3 := log_call (CountDocuments "patient") w2).
  rewrite (bind_run _ _ _ _ _ (count_run "pregnancy" w3 st Hdb)).
  set (w4 := log_call (CountDocuments "pregnancy") w3).
  rewrite (bind_run _ _ _ _ _ (count_run "visit" w4 st Hdb)).
  set (w5 := log_call (CountDocuments "visit") w4).
  rewrite (bind_run _ _ _ _ _ (count_run "appointment" w5 st Hdb)).
  set (w6 := log_call (CountDocuments "appointment") w5).
  rewrite (bind_run _ _ _ _ _ (count_run "alert" w6 st Hdb)).
  eexists _, _. split; [reflexivity |]. split; [reflexivity |].
  cbn. rewrite <- !app_assoc. reflexivity.
Qed.

(* ===================================================================== *)
(** ** What an admitted visit or pregnancy guarantees *)
(* ===================================================================== *)




Lemma required_given {A} name (r : raw A) (a : A) :
  required name r = inr a -> r = Given a.
Proof. destruct r; cbn; congruence. Qed.




(* ===================================================================== *)
(** ** Appointments and alerts: no lookup *)
(* ===================================================================== *)

(** X10. An alert is admitted without any lookup of its
    [patient_id]: whatever that text is, the insert is the only driver
    call. *)
Theorem alert_admitted_without_lookup
    (b : Alert.body) (a : Alert.t) (w : World) (st : store) :
  Alert.validate b = inr a ->
  db w = Some st ->
  faults w (InsertOne "alert") = false ->
  app (PostAlerts b) w
  = (mkResponse 200 (Object [("id", PStr (oid_str (fresh_oid w)))]),
     put_store
       (<["alert" := collection st "alert"
                     ++ [("_id", PObjectId (fresh_oid w))
                         :: Alert.model_dump a]]> st)
       (next_oid w + 1)%N (log_call (InsertOne "alert") w)).
Proof.
  intros Hv Hdb Hf. cbn [app]. unfold with_body. rewrite Hv.
  unfold create_alert.
  rewrite (bind_run _ _ _ _ _ (ensure_db_run w st Hdb)).
  pose proof (create_document_outcome "alert" (Alert.model_dump a) w) as H.
  rewrite Hdb, Hf in H. unfold bind. now rewrite H.
Qed.

(** X12. An appointment is admitted without any lookup of its
    [patient_id]: whatever that text is, the insert is the only driver
    call. *)
Theorem appointment_admitted_without_lookup
    (b : Appointment.body) (a : Appointment.t) (w : World) (st : store) :
  Appointment.validate b = inr a ->
  db w = Some st ->
  faults w (InsertOne "appointment") = false ->
  app (PostAppointments b) w
  = (mkResponse 200 (Object [("id", PStr (oid_str (fresh_oid w)))]),
     put_store
       (<["appointment" := collection st "appointment"
                           ++ [("_id", PObjectId (fresh_oid w))
                               :: Appointment.model_dump a]]> st)
       (next_oid w + 1)%N (log_call (InsertOne "appointment") w)).
Proof.
  intros Hv Hdb Hf. cbn [app]. unfold with_body. rewrite Hv.
  unfold create_appointment.
  rewrite (bind_run _ _ _ _ _ (ensure_db_run w st Hdb)).
  pose proof (create_document_outcome "appointment"
                (Appointment.model_dump a) w) as H.
  rewrite Hdb, Hf in H. unfold bind. now rewrite H.
Qed.

(* ===================================================================== *)
(** ** Storage identifiers as text *)
(* ===================================================================== *)

Lemma hex_val_char (d : N) : (d < 16)%N -> hex_val (hex_char d) = Some d.
Proof.
  intros H. rewrite <- (N2Nat.id d).
  assert (K : (N.to_nat d < 16)%nat) by lia.
  revert K. generalize (N.to_nat d) as k. intros k K.
  do 16 (destruct k as [| k]; [reflexivity |]). lia.
Qed.

Lemma hex_parse_app (l1 l2 : chars) (acc : N) :
  hex_parse (l1 ++ l2) acc
  = match hex_parse l1 acc with
    | Some a => hex_parse l2 a
    | None => None
    end.
Proof.
  revert acc. induction l1 as [| c l1 IH]; intros acc; [reflexivity |].
  simpl. destruct (hex_val c); [apply IH | reflexivity].
Qed.

Lemma hex_parse_fixed (width : nat) (n acc : N) :
  hex_parse (hex_fixed width n) acc
  = Some (acc * 16 ^ N.of_nat width + n mod 16 ^ N.of_nat width)%N.
Proof.
  revert n acc. induction width as [| k IH]; intros n acc.
  - cbn. f_equal. rewrite N.mod_1_r. lia.
  - cbn [hex_fixed]. rewrite hex_parse_app, IH. cbn [hex_parse].
    rewrite hex_val_char by (apply N.mod_lt; lia).
    f_equal. rewrite Nat2N.inj_succ, N.pow_succ_r'.
    rewrite (N.Div0.mod_mul_r n 16 (16 ^ N.of_nat k)). lia.
Qed.

Lemma hex_fixed_length (width : nat) (n : N) :
  length (hex_fixed width n) = width.
Proof.
  revert n. induction width as [| k IH]; intros n; [reflexivity |].
  cbn [hex_fixed]. rewrite length_app, IH. cbn. lia.
Qed.

Lemma string_of_list_ascii_length (l : chars) :
  String.length (string_of_list_ascii l) = length l.
Proof. induction l as [| c l IH]; cbn; [reflexivity | now rewrite IH]. Qed.

(** The text of a storage identifier reads back as that identifier. *)
Lemma ObjectId_of_oid_str (o : N) :
  (o < 2 ^ 96)%N -> ObjectId (oid_str o) = Some o.
Proof.
  intros H. unfold ObjectId, oid_str.
  rewrite string_of_list_ascii_length, hex_fixed_length.
  cbn [Nat.eqb]. rewrite list_ascii_of_string_of_list_ascii, hex_parse_fixed.
  f_equal. change (16 ^ N.of_nat 24)%N with (2 ^ 96)%N.
  rewrite N.mod_small by exact H. lia.
Qed.

Lemma fresh_oid_bound w : (fresh_oid w < 2 ^ 96)%N.
Proof. unfold fresh_oid. apply N.mod_lt. lia. Qed.

Lemma find_resolved st col oid :
  resolves st col oid ->
  exists d, List.find (has_id oid) (collection st col) = Some d.
Proof.
  intros (d & Hin & Hid).
  destruct (List.find (has_id oid) (collection st col)) as [d' |] eqn:E;
    [eauto |].
  pose proof (find_none _ _ E d Hin) as H.
  unfold has_id in H. rewrite Hid, N.eqb_refl in H. discriminate.
Qed.

(* ===================================================================== *)
(** ** Admission of a pregnancy, and of a patient before it *)
(* ===================================================================== *)

(** The run of POST /pregnancies when the patient resolves and the
    driver answers. *)
Lemma create_pregnancy_run
    (b : Pregnancy.body) (p : Pregnancy.t) (w : World) (st : store)
    (pid : N) :
  Pregnancy.validate b = inr p ->
  db w = Some st ->
  ObjectId (Pregnancy.patient_id p) = Some pid ->
  resolves st "patient" pid ->
  faults w (FindOne "patient" pid) = false ->
  faults w (InsertOne "pregnancy") = false ->
  app (PostPregnancies b) w
  = (mkResponse 200 (Object [("id", PStr (oid_str (fresh_oid w)))]),
     put_store
       (<["pregnancy" := collection st "pregnancy"
                         ++ [("_id", PObjectId (fresh_oid w))
                             :: Pregnancy.model_dump p]]> st)
       (next_oid w + 1)%N
       (log_call (InsertOne "pregnancy")
          (log_call (FindOne "patient" pid) w))).
Proof.
  intros Hv Hdb Hoid Hres Hf Hi.
  destruct (find_resolved _ _ _ Hres) as [d Hd].
  cbn [app]. unfold with_body. rewrite Hv. unfold create_pregnancy.
  rewrite (bind_run _ _ _ _ _ (ensure_db_run w st Hdb)). rewrite Hoid.
  rewrite (bind_run (ret pid) _ w pid w eq_refl). unfold find_one.
  rewrite (bind_run _ _ _ _ _ (driver_read_run _ _ w st Hdb Hf)). rewrite Hd.
  pose proof (create_document_outcome "pregnancy" (Pregnancy.model_dump p)
                (log_call (FindOne "patient" pid) w)) as H.
  cbn [db faults log_call] in H. rewrite Hdb, Hi in H.
  unfold bind. now rewrite H.
Qed.

(** X5. A pregnancy whose patient resolves is admitted: its model dump is
    stored under a fresh identifier, whose text is returned. *)
Theorem create_pregnancy_known_patient
    (b : Pregnancy.body) (p : Pregnancy.t) (w : World) (st : store)
    (pid : N) :
  Pregnancy.validate b = inr p ->
  db w = Some st ->
  ObjectId (Pregnancy.patient_id p) = Some pid ->
  resolves st "patient" pid ->
  faults w (FindOne "patient" pid) = false ->
  faults w (InsertOne "pregnancy") = false ->
  app (PostPregnancies b) w
  = (mkResponse 200 (Object [("id", PStr (oid_str (fresh_oid w)))]),
     put_store
       (<["pregnancy" := collection st "pregnancy"
                         ++ [("_id", PObjectId (fresh_oid w))
                             :: Pregnancy.model_dump p]]> st)
       (next_oid w + 1)%N
       (log_call (InsertOne "pregnancy")
          (log_call (FindOne "patient" pid) w))).
Proof.
  intros Hv Hdb Hoid Hres Hf Hi.
  now apply create_pregnancy_run with (p := p).
Qed.

(** X16. The identifier returned by POST /patients is a well-formed
    reference to the patient just stored, so that a pregnancy naming it
    is admitted by the next request. *)
Theorem patient_then_pregnancy
    (pb : Patient.body) (gb : Pregnancy.body) (g : Pregnancy.t)
    (w w1 : World) (resp : response) (id : string) :
  app (PostPatients pb) w = (resp, w1) ->
  status resp = 200 ->
  dict_get "id" (returned_object resp) = Some (PStr id) ->
  Pregnancy.validate gb = inr g ->
  Pregnancy.patient_id g = id ->
  (forall c, faults w1 c = false) ->
  exists (oid : N) (st1 : store),
    ObjectId id = Some oid
    /\ db w1 = Some st1
    /\ resolves st1 "patient" oid
    /\ status (fst (app (PostPregnancies gb) w1)) = 200.
Proof.
  intros Happ Hok Hid Hv Hg Hfaults.
  destruct (post_outcome (PostPatients pb) w eq_refl)
    as [(col & data & [= <-] & H) | H];
    rewrite Happ in H; [| destruct H as [Hno _]; now destruct Hno].
  destruct H as (st & Hdb & _ & Hret & Hdb' & _). cbn [fst snd] in *.
  assert (Hid' : id = oid_str (fresh_oid w)) by congruence.
  rewrite Hid' in *. clear Hid'.
  pose proof (ObjectId_of_oid_str _ (fresh_oid_bound w)) as Hoid.
  assert (Hres : resolves
            (<["patient" := collection st "patient"
                            ++ [("_id", PObjectId (fresh_oid w)) :: data]]> st)
            "patient" (fresh_oid w)).
  { exists (("_id", PObjectId (fresh_oid w)) :: data).
    rewrite collection_insert. split; [| reflexivity].
    apply in_or_app. right. now left. }
  eexists _, _. split; [exact Hoid |]. split; [exact Hdb' |].
  split; [exact Hres |].
  assert (Hoid' : ObjectId (Pregnancy.patient_id g) = Some (fresh_oid w))
    by now rewrite Hg.
  now rewrite (create_pregnancy_run gb g w1 _ _ Hv Hdb' Hoid' Hres
                 (Hfaults _) (Hfaults _)).
Qed.

(* ===================================================================== *)
(** ** The public identifier tells the date and the draw *)
(* ===================================================================== *)

Lemma string_of_list_ascii_inj (a b : chars) :
  string_of_list_ascii a = string_of_list_ascii b -> a = b.
Proof.
  intros H. apply (f_equal list_ascii_of_string) in H.
  now rewrite !list_ascii_of_string_of_list_ascii in H.
Qed.

(** X15. Two generated identifiers are equal exactly when they were made
    on the same UTC date from the same draw. *)
Theorem matergui_id_collides_iff (w1 w2 : World) :
  four_digit_year (utcnow w1) ->
  four_digit_year (utcnow w2) ->
  0 <= randbelow w1 (10 ^ 6) < 10 ^ 6 ->
  0 <= randbelow w2 (10 ^ 6) < 10 ^ 6 ->
  fst (generate_matergui_id w1) = fst (generate_matergui_id w2)
  <-> yyyymmdd (utcnow w1) = yyyymmdd (utcnow w2)
      /\ randbelow w1 (10 ^ 6) = randbelow w2 (10 ^ 6).
Proof.
  intros C1 C2 R1 R2. rewrite !generate_matergui_id_run. cbn [fst].
  destruct (date_stamp _ C1) as (L1 & _ & V1).
  destruct (date_stamp _ C2) as (L2 & _ & V2).
  destruct (suffix_stamp _ R1) as (_ & _ & S1).
  destruct (suffix_stamp _ R2) as (_ & _ & S2).
  split.
  - intros H.
    apply (f_equal (fun x : exn + string =>
                      match x with inr s => s | inl _ => "" end)) in H.
    change (matergui_id_at w1 = matergui_id_at w2) in H.
    rewrite !matergui_id_at_shape in H.
    apply string_of_list_ascii_inj, app_inv_head in H.
    apply app_inj_1 in H as [H8 H6]; [| congruence].
    injection H6 as H6. split; congruence.
  - intros [Hd Hr]. f_equal.
    unfold matergui_id_at, strftime_Ymd, yyyymmdd, four_digit_year in *.
    rewrite Hr.
    assert (year (dt_date (utcnow w1)) = year (dt_date (utcnow w2))) as -> by lia.
    assert (month (dt_date (utcnow w1)) = month (dt_date (utcnow w2))) as -> by lia.
    assert (day (dt_date (utcnow w1)) = day (dt_date (utcnow w2))) as -> by lia.
    reflexivity.
Qed.

(* ===================================================================== *)
(** ** Bounds of the due count *)
(* ===================================================================== *)

Lemma bind_inr_inv {A B} (c : M A) (k : A -> M B) w b w' :
  (x <- c ;; k x) w = (inr b, w') ->
  exists a w1, c w = (inr a, w1) /\ k a w1 = (inr b, w').
Proof.
  unfold bind. destruct (c w) as [[e | a] w1]; [discriminate |]. eauto.
Qed.

Lemma due_step_bounds today p due w d' w' :
  due_step today p due w = (inr d', w') -> due <= d' <= due + 1.
Proof.
  unfold due_step, bind, attr_year, attr_month, ret, raise.
  intros H.
  repeat match type of H with
         | context [match ?x with _ => _ end] => destruct x
         end;
    try discriminate; injection H as <- <-; lia.
Qed.

Lemma due_loop_bounds today ps due w d' w' :
  due_loop today ps due w = (inr d', w') ->
  due <= d' <= due + Z.of_nat (length ps).
Proof.
  revert due w. induction ps as [| p ps IH]; intros due w H.
  - cbn in H. injection H as <- <-. cbn. lia.
  - cbn [due_loop] in H. apply bind_inr_inv in H as (d1 & w1 & H1 & H2).
    apply due_step_bounds in H1. apply IH in H2.
    cbn [length]. lia.
Qed.

(** X20. Whenever the report is returned, its due count lies between 0
    and 200 and does not exceed the number of stored pregnancies. *)
Theorem due_this_month_bounded (w w' : World) (resp : response) (s : stats) :
  app GetStats w = (resp, w') ->
  reported_stats resp = Some s ->
  exists st : store,
    db w = Some st
    /\ 0 <= due_this_month s <= 200
    /\ due_this_month s <= Z.of_nat (length (collection st "pregnancy")).
Proof.
  cbn [app]. intros Happ Hs.
  destruct (get_stats w) as [[e | s0] w0] eqn:E.
  { destruct e; cbn in Happ; injection Happ as <- <-; discriminate. }
  cbn in Happ. injection Happ as <- <-. cbn in Hs. injection Hs as ->.
  unfold get_stats in E.
  apply bind_inr_inv in E as ([] & w1 & E1 & E).
  unfold ensure_db in E1. destruct (db w) as [st |] eqn:Hdb; [| discriminate].
  injection E1 as <-. exists st. split; [reflexivity |].
  apply bind_inr_inv in E as (recent & w2 & E2 & E).
  unfold find_projected, driver_read in E2. rewrite Hdb in E2.
  destruct (faults w (Find "pregnancy")); [discriminate |].
  injection E2 as <- <-.
  apply bind_inr_inv in E as (due & w3 & E3 & E).
  assert (B : 0 <= due
              <= Z.of_nat (length (firstn 200
                   (List.map (project "expected_due_date")
                      (collection st "pregnancy"))))).
  { destruct (firstn 200 _) as [| p ps] eqn:Er.
    - cbn in E3. injection E3 as <- _. cbn. lia.
    - apply bind_inr_inv in E3 as (t & w4 & _ & E3).
      apply due_loop_bounds in E3. lia. }
  rewrite length_firstn, length_map in B.
  repeat (apply bind_inr_inv in E as (? & ? & _ & E)).
  cbn in E. injection E as <- _. cbn [due_this_month]. lia.
Qed.

(* ===================================================================== *)
(** ** Closed enumerations *)
(* ===================================================================== *)

Lemma literal_inv {E} name (parse : string -> option E) (d e : E)
    (r : raw string) :
  literal name parse d r = inr e ->
  (r = Absent /\ e = d) \/ exists s, r = Given s /\ parse s = Some e.
Proof.
  unfold literal. destruct r as [| | s |]; intros H; try discriminate.
  - injection H as <-. now left.
  - destruct (parse s) as [e' |] eqn:P; [| discriminate].
    injection H as <-. right. eauto.
Qed.

(** A parser that is a chain of comparisons returns the value whose text
    it was given. *)
Ltac parse_chain H :=
  repeat match type of H with
         | context [String.eqb ?s ?k] =>
             destruct (String.eqb_spec s k);
             [subst; injection H as <-; reflexivity |]
         end;
  discriminate.

Lemma parse_risk_level_str s e :
  Pregnancy.parse_risk_level s = Some e -> Pregnancy.risk_level_str e = s.
Proof. unfold Pregnancy.parse_risk_level. intros H. parse_chain H. Qed.

Lemma parse_pregnancy_status_str s e :
  Pregnancy.parse_status s = Some e -> Pregnancy.status_str e = s.
Proof. unfold Pregnancy.parse_status. intros H. parse_chain H. Qed.

Lemma parse_alert_type_str s e :
  Alert.parse_type s = Some e -> Alert.type_str e = s.
Proof. unfold Alert.parse_type. intros H. parse_chain H. Qed.

Lemma parse_appointment_status_str s e :
  Appointment.parse_status s = Some e -> Appointment.status_str e = s.
Proof. unfold Appointment.parse_status. intros H. parse_chain H. Qed.

Lemma parse_role_str s e :
  User.parse_role s = Some e -> User.role_str e = s.
Proof. unfold User.parse_role. intros H. parse_chain H. Qed.

Lemma parse_facility_type_str s e :
  Facility.parse_type s = Some e -> Facility.type_str e = s.
Proof. unfold Facility.parse_type. intros H. parse_chain H. Qed.

(** What a validated [Literal] field is worth once dumped. *)
Lemma literal_stored {E} name (parse : string -> option E) (str : E -> string)
    (values : list string) (d e : E) (r : raw string) :
  (forall s e, parse s = Some e -> str e = s) ->
  (forall e, In (str e) values) ->
  literal name parse d r = inr e ->
  stored_literal values (str d) r (PStr (str e)).
Proof.
  intros Hround Hin H. exists (str e). split; [reflexivity |].
  split; [apply Hin |].
  apply literal_inv in H as [[-> ->] | (s & -> & P)].
  - split; [reflexivity | discriminate].
  - split; [discriminate |]. intros s' [= <-]. now apply Hround.
Qed.

Lemma pregnancy_validate_literals (b : Pregnancy.body) (p : Pregnancy.t) :
  Pregnancy.validate b = inr p ->
  literal "risk_level" Pregnancy.parse_risk_level Pregnancy.faible
    (Pregnancy.in_risk_level b) = inr (Pregnancy.risk_level p)
  /\ literal "status" Pregnancy.parse_status Pregnancy.en_cours
       (Pregnancy.in_status b) = inr (Pregnancy.status p).
Proof.
  unfold Pregnancy.validate. intros H. peel H. subst. split; assumption.
Qed.

(** X7. The risk level and the status stored with an admitted pregnancy
    are always among the enumerated ones: the supplied text, or
    [faible] and [en_cours] when the body omits them. *)
Theorem admitted_pregnancy_enumerations
    (b : Pregnancy.body) (w w' : World) (resp : response) :
  app (PostPregnancies b) w = (resp, w') ->
  status resp = 200 ->
  exists (st : store) (doc : document),
    db w = Some st
    /\ db w'
       = Some (<["pregnancy" := collection st "pregnancy" ++ [doc]]> st)
    /\ stored_literal ["faible"; "modere"; "eleve"] "faible"
         (Pregnancy.in_risk_level b) (py_get "risk_level" doc)
    /\ stored_literal ["en_cours"; "accouchement"; "terminee"] "en_cours"
         (Pregnancy.in_status b) (py_get "status" doc).
Proof.
  intros Happ Hok.
  destruct (create_pregnancy_admits b w resp w' Happ Hok)
    as (p & st & oid & Hv & Hdb & Hdb').
  destruct (pregnancy_validate_literals b p Hv) as [Hr Hs].
  exists st, (("_id", PObjectId oid) :: Pregnancy.model_dump p).
  split; [exact Hdb |]. split; [exact Hdb' |].
  split.
  - exact (literal_stored "risk_level" Pregnancy.parse_risk_level
             Pregnancy.risk_level_str ["faible"; "modere"; "eleve"]
             Pregnancy.faible _ _ parse_risk_level_str
             ltac:(intros []; cbn; auto) Hr).
  - exact (literal_stored "status" Pregnancy.parse_status
             Pregnancy.status_str ["en_cours"; "accouchement"; "terminee"]
             Pregnancy.en_cours _ _ parse_pregnancy_status_str
             ltac:(intros []; cbn; auto) Hs).
Qed.

Lemma alert_validate_type (b : Alert.body) (a : Alert.t) :
  Alert.validate b = inr a ->
  literal "type" Alert.parse_type Alert.rappel (Alert.in_type b)
  = inr (Alert.type a)
  /\ Alert.in_message b = Given (Alert.message a).
Proof.
  unfold Alert.validate. intros H. peel H. subst. cbn.
  split; [assumption | now apply required_given with "message"].
Qed.

(** X11. The type stored with an admitted alert is one of the three
    enumerated ones ([rappel] when omitted) and its message is the
    supplied text, as it was given. *)
Theorem admitted_alert_fields
    (b : Alert.body) (w w' : World) (resp : response) :
  app (PostAlerts b) w = (resp, w') ->
  status resp = 200 ->
  exists (st : store) (doc : document) (msg : string),
    db w = Some st
    /\ db w' = Some (<["alert" := collection st "alert" ++ [doc]]> st)
    /\ stored_literal ["urgence"; "rappel"; "risque"] "rappel"
         (Alert.in_type b) (py_get "type" doc)
    /\ Alert.in_message b = Given msg
    /\ py_get "message" doc = PStr msg.
Proof.
  cbn [app]. unfold with_body.
  destruct (Alert.validate b) as [fs | a] eqn:Hv;
    [intros [= <- <-]; discriminate |].
  intros Happ Hok.
  destruct (create_alert_outcome a w) as [H | H]; rewrite Happ in H;
    [| destruct H as [Hno _]; now destruct Hno].
  destruct H as (st & Hdb & _ & _ & Hdb' & _). cbn [snd] in Hdb'.
  destruct (alert_validate_type b a Hv) as [Ht Hm].
  exists st. eexists _, (Alert.message a).
  split; [exact Hdb |]. split; [exact Hdb' |].
  split; [| split; [exact Hm | reflexivity]].
  exact (literal_stored "type" Alert.parse_type Alert.type_str
           ["urgence"; "rappel"; "risque"] Alert.rappel _ _
           parse_alert_type_str ltac:(intros []; cbn; auto) Ht).
Qed.

(* ===================================================================== *)
(** ** The schemas without a route *)
(* ===================================================================== *)

Lemma user_validate_fields (b : User.body) (u : User.t) :
  User.validate b = inr u ->
  literal "role" User.parse_role User.agent (User.in_role b)
  = inr (User.role u)
  /\ defaulted "is_active" true (User.in_is_active b)
     = inr (User.is_active u)
  /\ User.in_full_name b = Given (User.full_name u).
Proof.
  unfold User.validate. intros H. peel H. subst. cbn.
  repeat split; try assumption. now apply required_given with "full_name".
Qed.

(** X26. A validated user has one of the six roles ([agent] when the body
    omits it), is active unless the body says otherwise, and carries the
    supplied name. *)
Theorem validated_user (b : User.body) (u : User.t) :
  User.validate b = inr u ->
  stored_literal
    ["agent"; "medecin"; "sage_femme"; "patiente"; "admin"; "ministere"]
    "agent" (User.in_role b) (py_get "role" (User.model_dump u))
  /\ (User.in_is_active b = Absent ->
      py_get "is_active" (User.model_dump u) = PBool true)
  /\ (forall a, User.in_is_active b = Given a ->
      py_get "is_active" (User.model_dump u) = PBool a)
  /\ User.in_full_name b = Given (User.full_name u).
Proof.
  intros Hv. destruct (user_validate_fields b u Hv) as (Hr & Ha & Hn).
  split.
  - exact (literal_stored "role" User.parse_role User.role_str
             ["agent"; "medecin"; "sage_femme"; "patiente"; "admin";
              "ministere"]
             User.agent _ _ parse_role_str
             ltac:(intros []; cbn; auto 10) Hr).
  - change (py_get "is_active" (User.model_dump u))
      with (PBool (User.is_active u)).
    unfold defaulted in Ha.
    destruct (User.in_is_active b) as [| | a |]; try discriminate;
      injection Ha as <-.
    + split; [reflexivity |]. split; [discriminate | exact Hn].
    + split; [discriminate |].
      split; [intros a0 [= <-]; reflexivity | exact Hn].
Qed.

Lemma facility_validate_fields (b : Facility.body) (f : Facility.t) :
  Facility.validate b = inr f ->
  literal "type" Facility.parse_type Facility.centre_sante
    (Facility.in_type b) = inr (Facility.type f)
  /\ Facility.in_name b = Given (Facility.name f).
Proof.
  unfold Facility.validate. intros H. peel H. subst. cbn.
  split; [assumption | now apply required_given with "name"].
Qed.

(** X27. A validated facility has one of the five types ([centre_sante]
    when the body omits it) and carries the supplied name. *)
Theorem validated_facility (b : Facility.body) (f : Facility.t) :
  Facility.validate b = inr f ->
  stored_literal
    ["centre_sante"; "hopital"; "clinique_privee"; "clinique_publique";
     "autre"]
    "centre_sante" (Facility.in_type b)
    (py_get "type" (Facility.model_dump f))
  /\ Facility.in_name b = Given (Facility.name f).
Proof.
  intros Hv. destruct (facility_validate_fields b f Hv) as (Ht & Hn).
  split; [| exact Hn].
  exact (literal_stored "type" Facility.parse_type Facility.type_str
           ["centre_sante"; "hopital"; "clinique_privee";
            "clinique_publique"; "autre"]
           Facility.centre_sante _ _ parse_facility_type_str
           ltac:(intros []; cbn; auto 10) Ht).
Qed.

(* ===================================================================== *)
(** ** Which visits validate *)
(* ===================================================================== *)

Lemma is_valid_vap {A B} (f : list string + (A -> B)) (x : string + A) :
  is_valid (f <*> x) = is_valid f && accepted x.
Proof. destruct f, x; reflexivity. Qed.

Lemma accepted_required {A} name (r : raw A) :
  accepted (required name r) = true <-> raw_required r.
Proof.
  unfold raw_required. destruct r; cbn; split; try discriminate; eauto;
    intros [a' H]; discriminate.
Qed.

Lemma accepted_defaulted {A} name (d : A) (r : raw A) :
  accepted (defaulted name d r) = true <-> raw_defaulted r.
Proof.
  unfold raw_defaulted. destruct r; cbn; split; try discriminate; eauto;
    intros [H | [a' H]]; discriminate.
Qed.

Lemma accepted_optional {A} name (d : option A) (r : raw A) :
  accepted (optional name d unconstrained r) = true <-> raw_optional r.
Proof.
  unfold raw_optional. destruct r; cbn; split; try discriminate; auto;
    intros H; now destruct H.
Qed.

Lemma accepted_int_range name (lo hi : Z) (r : raw Z) :
  accepted (optional name None (int_range lo hi) r) = true
  <-> raw_int_in lo hi r.
Proof.
  unfold int_range. destruct r as [| | z |]; cbn; try tauto;
    [| split; [discriminate | tauto]].
  destruct (Z.ltb_spec z lo), (Z.ltb_spec hi z); cbn;
    split; try discriminate; try reflexivity; lia.
Qed.

Lemma accepted_float_range name (lo hi : float) (r : raw float) :
  accepted (optional name None (float_range lo hi) r) = true
  <-> raw_float_in lo hi r.
Proof.
  unfold float_range. destruct r as [| | x |]; cbn; try tauto;
    [| split; [discriminate | tauto]].
  destruct (PrimFloat.ltb x lo), (PrimFloat.ltb hi x); cbn;
    split; intros H; try discriminate; try reflexivity;
    try (destruct H; discriminate); auto.
Qed.

(** X9. A visit whose floating-point vitals are numbers validates
    exactly when its [pregnancy_id] is given, its date is given or
    missing, each vital is missing, null or within its inclusive
    bounds, and no free field is of a foreign type. (A NaN compares
    neither below nor above a bound; such bodies are left out.) *)
Theorem visit_validates_iff (today : date) (b : Visit.body) :
  is_number (Visit.in_weight_kg b) ->
  is_number (Visit.in_fundal_height_cm b) ->
  is_valid (Visit.validate today b) = true
  <-> raw_required (Visit.in_pregnancy_id b)
      /\ raw_defaulted (Visit.in_visit_date b)
      /\ raw_int_in 50 250 (Visit.in_blood_pressure_systolic b)
      /\ raw_int_in 30 150 (Visit.in_blood_pressure_diastolic b)
      /\ raw_float_in 20 250 (Visit.in_weight_kg b)
      /\ raw_float_in 0 60 (Visit.in_fundal_height_cm b)
      /\ raw_int_in 60 200 (Visit.in_foetal_heart_rate b)
      /\ raw_optional (Visit.in_symptoms b)
      /\ raw_optional (Visit.in_notes b)
      /\ raw_optional (Visit.in_prescriptions b).
Proof.
  intros _ _.
  unfold Visit.validate. rewrite !is_valid_vap. cbn [is_valid andb].
  rewrite !andb_true_iff.
  rewrite accepted_required, accepted_defaulted, !accepted_int_range,
    !accepted_float_range, !accepted_optional.
  tauto.
Qed.

(* ===================================================================== *)
(** ** The diagnostic route *)
(* ===================================================================== *)

(** X25. [GET /test] never fails and never writes: it returns a mapping
    whose backend entry says running and whose collections are at most
    twenty names, also when the listing faults; with the store unset it
    returns the initial mapping without calling the driver. *)
Theorem test_database_never_fails
    (getenv : string -> option string) (w : World) :
  exists (r : document) (w' : World) (names : list string),
    test_database getenv w = (inr r, w')
    /\ db w' = db w
    /\ py_get "backend" r = PStr "✅ Running"
    /\ py_get "collections" r = PList (List.map PStr names)
    /\ (length names <= 20)%nat
    /\ (db w = None -> r = initial_diagnostic /\ w' = w).
Proof.
  unfold test_database, try_except.
  destruct (db w) as [st |] eqn:Hdb.
  - unfold bind, list_collection_names, driver_read. rewrite Hdb.
    destruct (faults w ListCollectionNames).
    + eexists _, _, []. split; [reflexivity |].
      split; [exact Hdb |]. split; [reflexivity |]. split; [reflexivity |].
      split; [cbn; lia | discriminate].
    + eexists _, _, (firstn 20 (map_to_list st).*1). split; [reflexivity |].
      split; [exact Hdb |]. split; [reflexivity |]. split; [reflexivity |].
      split; [rewrite length_firstn; lia | discriminate].
  - eexists _, _, []. split; [reflexivity |].
    split; [exact Hdb |]. split; [reflexivity |]. split; [reflexivity |].
    split; [cbn; lia | auto].
Qed.

(* ===================================================================== *)
(** ** Concrete runs of the statements above *)
(* ===================================================================== *)


Lemma create_visit_unknown_pregnancy_witness :
  app (PostVisits (visit_for (oid_str 10))) clinic_world
  = (mkResponse 404 (Detail "Grossesse introuvable"),
     log_call (FindOne "pregnancy" 10) clinic_world).
Proof.
  apply (create_visit_unknown_pregnancy
           (visit_for (oid_str 10))
           (Visit.mk (oid_str 10) (mkDate 2024 3 15) (Some 120) (Some 80)
                     None None (Some 140) None None None)
           clinic_world clinic_store 10%N).
  - reflexivity.
  - reflexivity.
  - vm_compute. reflexivity.
  - reflexivity.
  - intros (d & Hin & Hid). vm_compute in Hin.
    destruct Hin as [<- | []]. vm_compute in Hid. discriminate.
Defined.

Lemma create_visit_lookup_fault_witness :
  app (PostVisits (visit_for (oid_str 9))) lookup_fault_world
  = (mkResponse 400 (Detail "pregnancy_id invalide"),
     log_call (FindOne "pregnancy" 9) lookup_fault_world).
Proof.
  apply (create_visit_lookup_fault
           (visit_for (oid_str 9))
           (Visit.mk (oid_str 9) (mkDate 2024 3 15) (Some 120) (Some 80)
                     None None (Some 140) None None None)
           lookup_fault_world clinic_store 9%N);
    vm_compute; reflexivity.
Defined.

Lemma create_pregnancy_lookup_fault_witness :
  app (PostPregnancies (pregnancy_of (oid_str 7))) lookup_fault_world
  = (mkResponse 500 (Detail "Internal Server Error"),
     log_call (FindOne "patient" 7) lookup_fault_world).
Proof.
  apply (create_pregnancy_lookup_fault
           (pregnancy_of (oid_str 7))
           (Pregnancy.mk (oid_str 7) None (Some (mkDate 2024 3 28))
                         (Some 0) (Some 1) Pregnancy.faible
                         Pregnancy.en_cours)
           lookup_fault_world clinic_store 7%N);
    vm_compute; reflexivity.
Defined.

Lemma supplied_matergui_id_kept_witness :
  app (PostPatients (patient_named (Given "MGU-20200101-000001"))) sample_world
  = (mkResponse 200
       (Object [("id", PStr (oid_str (fresh_oid sample_world)));
                ("matergui_id", PStr "MGU-20200101-000001")]),
     put_store
       (<["patient" :=
            collection sample_store "patient"
            ++ [("_id", PObjectId (fresh_oid sample_world))
                :: Patient.model_dump
                     (Patient.mk (Some "MGU-20200101-000001") "Aissatou"
                        "Camara" None None None None None None None)]]>
          sample_store)
       (next_oid sample_world + 1)%N
       (log_call (InsertOne "patient") sample_world))
  /\ dict_get "matergui_id"
       (Patient.model_dump
          (Patient.mk (Some "MGU-20200101-000001") "Aissatou" "Camara"
             None None None None None None None))
     = Some (PStr "MGU-20200101-000001").
Proof.
  apply (supplied_matergui_id_kept
           (patient_named (Given "MGU-20200101-000001"))
           (Patient.mk (Some "MGU-20200101-000001") "Aissatou" "Camara"
              None None None None None None None)
           sample_world sample_store "MGU-20200101-000001");
    try reflexivity.
  discriminate.
Defined.

Lemma admitted_request_appends_one_document_witness :
  exists (col : string) (st st' : store) (doc : document),
    collection_of (PostAlerts (alert_with Absent (Given "appeler")))
    = Some col
    /\ In col get_schema_definitions
    /\ db sample_world = Some st
    /\ db (snd (app (PostAlerts (alert_with Absent (Given "appeler")))
                    sample_world)) = Some st'
    /\ collection st' col = collection st col ++ [doc]
    /\ forall col', col' <> col -> collection st' col' = collection st col'.
Proof.
  apply (admitted_request_appends_one_document
           (PostAlerts (alert_with Absent (Given "appeler"))) sample_world
           (snd (app (PostAlerts (alert_with Absent (Given "appeler")))
                     sample_world))
           (fst (app (PostAlerts (alert_with Absent (Given "appeler")))
                     sample_world))).
  - reflexivity.
  - apply surjective_pairing.
  - vm_compute. reflexivity.
Defined.

Lemma refused_request_writes_nothing_witness :
  db (snd (app (PostPregnancies (pregnancy_of (oid_str 8))) sample_world))
  = db sample_world
  /\ next_oid (snd (app (PostPregnancies (pregnancy_of (oid_str 8)))
                        sample_world))
     = next_oid sample_world.
Proof.
  apply (refused_request_writes_nothing
           (PostPregnancies (pregnancy_of (oid_str 8))) sample_world
           (snd (app (PostPregnancies (pregnancy_of (oid_str 8)))
                     sample_world))
           (fst (app (PostPregnancies (pregnancy_of (oid_str 8)))
                     sample_world))).
  - apply surjective_pairing.
  - vm_compute. discriminate.
Defined.

Lemma get_stats_foreign_due_date_witness :
  app GetStats textual_due_world
  = (mkResponse 500 (Detail "Internal Server Error"),
     log_call (Find "pregnancy") textual_due_world).
Proof.
  apply (get_stats_foreign_due_date textual_due_world
           {[ "pregnancy" :=
                [[("_id", PObjectId 9);
                  ("expected_due_date", PStr "2024-03-28")]] ]});
    vm_compute; reflexivity.
Defined.

Lemma get_stats_scan_fault_witness :
  app GetStats scan_fault_world
  = (mkResponse 500 (Detail "Internal Server Error"),
     log_call (Find "pregnancy") scan_fault_world).
Proof.
  apply (get_stats_scan_fault scan_fault_world clinic_store); reflexivity.
Defined.

Lemma get_stats_listing_fault_witness :
  app GetStats listing_fault_world
  = (mkResponse 500 (Detail "Internal Server Error"),
     log_call ListCollectionNames
       (log_call (Find "pregnancy") listing_fault_world)).
Proof.
  apply (get_stats_listing_fault listing_fault_world clinic_store);
    vm_compute; reflexivity.
Defined.

Lemma get_stats_without_facilities_witness :
  exists (s : stats) (w' : World),
    app GetStats clinic_world = (mkResponse 200 (Stats s), w')
    /\ facilities_by_region s = []
    /\ calls w'
       = calls clinic_world
         ++ [Find "pregnancy"; ListCollectionNames;
             CountDocuments "patient"; CountDocuments "pregnancy";
             CountDocuments "visit"; CountDocuments "appointment";
             CountDocuments "alert"].
Proof.
  apply (get_stats_without_facilities clinic_world clinic_store);
    vm_compute; reflexivity.
Defined.



Lemma alert_admitted_without_lookup_witness :
  app (PostAlerts (alert_with (Given "urgence") (Given "saignement")))
      unknown_patient_world
  = (mkResponse 200
       (Object [("id", PStr (oid_str (fresh_oid unknown_patient_world)))]),
     put_store
       (<["alert" :=
            collection ∅ "alert"
            ++ [("_id", PObjectId (fresh_oid unknown_patient_world))
                :: Alert.model_dump
                     (Alert.mk (oid_str 7) Alert.urgence "saignement"
                               None)]]> ∅)
       (next_oid unknown_patient_world + 1)%N
       (log_call (InsertOne "alert") unknown_patient_world)).
Proof.
  apply (alert_admitted_without_lookup
           (alert_with (Given "urgence") (Given "saignement"))
           (Alert.mk (oid_str 7) Alert.urgence "saignement" None)
           unknown_patient_world ∅); reflexivity.
Defined.

Lemma appointment_admitted_without_lookup_witness :
  app (PostAppointments (appointment_for "nobody")) unknown_patient_world
  = (mkResponse 200
       (Object [("id", PStr (oid_str (fresh_oid unknown_patient_world)))]),
     put_store
       (<["appointment" :=
            collection ∅ "appointment"
            ++ [("_id", PObjectId (fresh_oid unknown_patient_world))
                :: Appointment.model_dump
                     (Appointment.mk "nobody" noon_15_march_2024 None
                                     Appointment.planifie)]]> ∅)
       (next_oid unknown_patient_world + 1)%N
       (log_call (InsertOne "appointment") unknown_patient_world)).
Proof.
  apply (appointment_admitted_without_lookup
           (appointment_for "nobody")
           (Appointment.mk "nobody" noon_15_march_2024 None
                           Appointment.planifie)
           unknown_patient_world ∅); reflexivity.
Defined.

Lemma create_pregnancy_known_patient_witness :
  app (PostPregnancies (pregnancy_of (oid_str 7))) sample_world
  = (mkResponse 200 (Object [("id", PStr (oid_str (fresh_oid sample_world)))]),
     put_store
       (<["pregnancy" :=
            collection sample_store "pregnancy"
            ++ [("_id", PObjectId (fresh_oid sample_world))
                :: Pregnancy.model_dump
                     (Pregnancy.mk (oid_str 7) None (Some (mkDate 2024 3 28))
                        (Some 0) (Some 1) Pregnancy.faible
                        Pregnancy.en_cours)]]> sample_store)
       (next_oid sample_world + 1)%N
       (log_call (InsertOne "pregnancy")
          (log_call (FindOne "patient" 7) sample_world))).
Proof.
  apply (create_pregnancy_known_patient
           (pregnancy_of (oid_str 7))
           (Pregnancy.mk (oid_str 7) None (Some (mkDate 2024 3 28))
              (Some 0) (Some 1) Pregnancy.faible Pregnancy.en_cours)
           sample_world sample_store 7%N).
  - reflexivity.
  - reflexivity.
  - vm_compute. reflexivity.
  - exists sample_patient. split; [left; reflexivity | reflexivity].
  - reflexivity.
  - reflexivity.
Defined.

Lemma patient_then_pregnancy_witness :
  exists (oid : N) (st1 : store),
    ObjectId (oid_str 100) = Some oid
    /\ db (snd (app (PostPatients (patient_named Absent)) sample_world))
       = Some st1
    /\ resolves st1 "patient" oid
    /\ status
         (fst (app (PostPregnancies (pregnancy_of (oid_str 100)))
                 (snd (app (PostPatients (patient_named Absent))
                         sample_world))))
       = 200.
Proof.
  apply (patient_then_pregnancy
           (patient_named Absent) (pregnancy_of (oid_str 100))
           (Pregnancy.mk (oid_str 100) None (Some (mkDate 2024 3 28))
              (Some 0) (Some 1) Pregnancy.faible Pregnancy.en_cours)
           sample_world
           (snd (app (PostPatients (patient_named Absent)) sample_world))
           (fst (app (PostPatients (patient_named Absent)) sample_world))
           (oid_str 100)).
  - apply surjective_pairing.
  - vm_compute. reflexivity.
  - vm_compute. reflexivity.
  - reflexivity.
  - reflexivity.
  - intros c. reflexivity.
Defined.

Lemma matergui_id_collides_iff_witness :
  fst (generate_matergui_id sample_world)
  = fst (generate_matergui_id next_day_world)
  <-> yyyymmdd (utcnow sample_world) = yyyymmdd (utcnow next_day_world)
      /\ randbelow sample_world (10 ^ 6) = randbelow next_day_world (10 ^ 6).
Proof.
  apply (matergui_id_collides_iff sample_world next_day_world);
    vm_compute; repeat split; discriminate.
Defined.

Lemma due_this_month_bounded_witness :
  exists st : store,
    db crowded_world = Some st
    /\ 0 <= due_this_month (mkStats 0 201 0 0 0 200 []) <= 200
    /\ due_this_month (mkStats 0 201 0 0 0 200 [])
       <= Z.of_nat (length (collection st "pregnancy")).
Proof.
  apply (due_this_month_bounded crowded_world
           (snd (app GetStats crowded_world))
           (fst (app GetStats crowded_world))
           (mkStats 0 201 0 0 0 200 [])).
  - apply surjective_pairing.
  - vm_compute. reflexivity.
Defined.

Lemma admitted_pregnancy_enumerations_witness :
  exists (st : store) (doc : document),
    db sample_world = Some st
    /\ db (snd (app (PostPregnancies (pregnancy_of (oid_str 7)))
                    sample_world))
       = Some (<["pregnancy" := collection st "pregnancy" ++ [doc]]> st)
    /\ stored_literal ["faible"; "modere"; "eleve"] "faible"
         (Pregnancy.in_risk_level (pregnancy_of (oid_str 7)))
         (py_get "risk_level" doc)
    /\ stored_literal ["en_cours"; "accouchement"; "terminee"] "en_cours"
         (Pregnancy.in_status (pregnancy_of (oid_str 7)))
         (py_get "status" doc).
Proof.
  apply (admitted_pregnancy_enumerations
           (pregnancy_of (oid_str 7)) sample_world
           (snd (app (PostPregnancies (pregnancy_of (oid_str 7)))
                     sample_world))
           (fst (app (PostPregnancies (pregnancy_of (oid_str 7)))
                     sample_world))).
  - apply surjective_pairing.
  - vm_compute. reflexivity.
Defined.

Lemma admitted_alert_fields_witness :
  exists (st : store) (doc : document) (msg : string),
    db sample_world = Some st
    /\ db (snd (app (PostAlerts (alert_with (Given "risque") (Given "")))
                    sample_world))
       = Some (<["alert" := collection st "alert" ++ [doc]]> st)
    /\ stored_literal ["urgence"; "rappel"; "risque"] "rappel"
         (Alert.in_type (alert_with (Given "risque") (Given "")))
         (py_get "type" doc)
    /\ Alert.in_message (alert_with (Given "risque") (Given "")) = Given msg
    /\ py_get "message" doc = PStr msg.
Proof.
  apply (admitted_alert_fields
           (alert_with (Given "risque") (Given "")) sample_world
           (snd (app (PostAlerts (alert_with (Given "risque") (Given "")))
                     sample_world))
           (fst (app (PostAlerts (alert_with (Given "risque") (Given "")))
                     sample_world))).
  - apply surjective_pairing.
  - vm_compute. reflexivity.
Defined.

Lemma validated_user_witness :
  stored_literal
    ["agent"; "medecin"; "sage_femme"; "patiente"; "admin"; "ministere"]
    "agent" (User.in_role (user_named "Mariama" (Given "sage_femme")))
    (py_get "role"
       (User.model_dump
          (User.mk "Mariama" None None User.sage_femme None true)))
  /\ (User.in_is_active (user_named "Mariama" (Given "sage_femme")) = Absent ->
      py_get "is_active"
        (User.model_dump
           (User.mk "Mariama" None None User.sage_femme None true))
      = PBool true)
  /\ (forall a,
        User.in_is_active (user_named "Mariama" (Given "sage_femme"))
        = Given a ->
        py_get "is_active"
          (User.model_dump
             (User.mk "Mariama" None None User.sage_femme None true))
        = PBool a)
  /\ User.in_full_name (user_named "Mariama" (Given "sage_femme"))
     = Given (User.full_name
                (User.mk "Mariama" None None User.sage_femme None true)).
Proof.
  apply (validated_user
           (user_named "Mariama" (Given "sage_femme"))
           (User.mk "Mariama" None None User.sage_femme None true)).
  reflexivity.
Defined.

Lemma validated_facility_witness :
  stored_literal
    ["centre_sante"; "hopital"; "clinique_privee"; "clinique_publique";
     "autre"]
    "centre_sante" (Facility.in_type (facility_named "Donka" Absent))
    (py_get "type"
       (Facility.model_dump
          (Facility.mk "Donka" Facility.centre_sante (Some "Conakry")
                       None None None)))
  /\ Facility.in_name (facility_named "Donka" Absent)
     = Given (Facility.name
                (Facility.mk "Donka" Facility.centre_sante (Some "Conakry")
                             None None None)).
Proof.
  apply (validated_facility
           (facility_named "Donka" Absent)
           (Facility.mk "Donka" Facility.centre_sante (Some "Conakry")
                        None None None)).
  reflexivity.
Defined.

Lemma visit_validates_iff_witness :
  is_valid (Visit.validate (mkDate 2024 3 15) (visit_for (oid_str 9))) = true
  <-> raw_required (Visit.in_pregnancy_id (visit_for (oid_str 9)))
      /\ raw_defaulted (Visit.in_visit_date (visit_for (oid_str 9)))
      /\ raw_int_in 50 250
           (Visit.in_blood_pressure_systolic (visit_for (oid_str 9)))
      /\ raw_int_in 30 150
           (Visit.in_blood_pressure_diastolic (visit_for (oid_str 9)))
      /\ raw_float_in 20 250 (Visit.in_weight_kg (visit_for (oid_str 9)))
      /\ raw_float_in 0 60 (Visit.in_fundal_height_cm (visit_for (oid_str 9)))
      /\ raw_int_in 60 200
           (Visit.in_foetal_heart_rate (visit_for (oid_str 9)))
      /\ raw_optional (Visit.in_symptoms (visit_for (oid_str 9)))
      /\ raw_optional (Visit.in_notes (visit_for (oid_str 9)))
      /\ raw_optional (Visit.in_prescriptions (visit_for (oid_str 9))).
Proof.
  apply (visit_validates_iff (mkDate 2024 3 15) (visit_for (oid_str 9)));
    intros x H; discriminate.
Defined.

(* ===================================================================== *)
(** ** Scenarios *)
(* ===================================================================== *)

Example dec_20240315 : string_of_list_ascii (dec 20240315) = "20240315".
Proof. reflexivity. Qed.

Example format_06d_42 : format_06d 42 = "000042".
Proof. reflexivity. Qed.

Example ObjectId_roundtrip :
  ObjectId (oid_str 1234567890123) = Some 1234567890123%N.
Proof. vm_compute. reflexivity. Qed.

Example ObjectId_upper_case :
  ObjectId "00000000000000000000000A" = Some 10%N.
Proof. vm_compute. reflexivity. Qed.

Example ObjectId_short : ObjectId "abc" = None.
Proof. reflexivity. Qed.

Example ObjectId_not_hex : ObjectId "zzzzzzzzzzzzzzzzzzzzzzzz" = None.
Proof. reflexivity. Qed.

(** POST /patients on 2024-03-15 with a first and a last name. *)
Example post_patient_15_march :
  fst (app (PostPatients (patient_named Absent)) sample_world)
  = mkResponse 200
      (Object [("id", PStr "000000000000000000000064");
               ("matergui_id", PStr "MGU-20240315-000042")]).
Proof. vm_compute. reflexivity. Qed.

(** POST /visits with a systolic pressure of 400. *)
Example post_visit_systolic_400 :
  app (PostVisits (visit_systolic 400)) sample_world
  = (mkResponse 422 (ValidationErrors ["blood_pressure_systolic"]),
     sample_world).
Proof. reflexivity. Qed.

(** A visit whose pregnancy does not exist. *)
Example post_visit_unknown_pregnancy :
  fst (app (PostVisits (visit_systolic 120)) sample_world)
  = mkResponse 404 (Detail "Grossesse introuvable").
Proof. vm_compute. reflexivity. Qed.

(** GET /stats on an empty store. *)
Example get_stats_empty_store :
  fst (app GetStats
         (mkWorld (Some ∅) no_fault [] 1 noon_15_march_2024
                  (mkDate 2024 3 15) (fun n => 42 mod n)))
  = mkResponse 200 (Stats (mkStats 0 0 0 0 0 0 [])).
Proof. vm_compute. reflexivity. Qed.

(** GET /stats with the store unset. *)
Example get_stats_unset_store :
  app GetStats unset_world = (service_unavailable, unset_world).
Proof. reflexivity. Qed.

(** The report of the degraded store: the visits read as zero. *)
Example get_stats_degraded :
  option_map (fun s => (patients s, visits s))
    (reported_stats (fst (app GetStats degraded_world)))
  = Some (1, 0).
Proof. vm_compute. reflexivity. Qed.
